(** * configure-serial.py: raw-mode configuration of a serial device

    A shallow embedding of [src/configure-serial.py] and the properties of
    its one procedure, [configure_serial_raw], and of the script entry
    point.

    The script talks to the operating system through the Python modules
    [os] and [termios].  Neither is part of the repository, so the system
    calls are an interface ([OS]) and the module constants a record
    ([Termios], [OsModule]); the script is written once over that interface,
    in a state-and-exception monad that also records every system call.
    A small simulated host ([Sim]) with the Linux and Darwin constants
    gives runnable instances.

    Writing a line to a stream always succeeds here, and only exceptions
    deriving from [Exception] are raised by the calls; [SystemExit] is kept
    apart from them, as [except Exception] does. *)

From Stdlib Require Import ZArith Ascii.
From stdpp Require Import gmap strings list pretty.

Local Open Scope Z_scope.

(** ** Python values the script handles *)

(** Exceptions that derive from [Exception]; [str] is what [f"{e}"] prints. *)
Inductive exn_class :=
  | OSError | TermiosError | AttributeError | IndexError | ValueError | TypeError.

Record exn := mk_exn { class_of : exn_class; str : string }.

(** An entry of the control-character list that [termios.tcgetattr]
    returns: a [bytes] object of length one, or an [int] (the VMIN and VTIME
    slots when canonical mode is off, and whatever the script stores). *)
Inductive cc_entry :=
  | CcBytes (b : Z)
  | CcInt (n : Z).

(** The seven-element list [[iflag, oflag, cflag, lflag, ispeed, ospeed, cc]]. *)
Record Attrs := mk_attrs {
  iflag : Z; oflag : Z; cflag : Z; lflag : Z;
  ispeed : Z; ospeed : Z;
  cc : list cc_entry
}.

(** ** The modules the script imports *)

(** Constants of the [termios] module.  The attributes the script reads by
    name are fields; [hasattr(termios, name)] and [getattr(termios, name)]
    for the speed constants go through [speed_attr], which is [None] for a
    name the host's module does not define.  [PARENB], [CSTOPB] and
    [ICANON] are not read by the script; properties of the control flags
    and the simulated host refer to them. *)
Record Termios := {
  CS8 : Z; CREAD : Z; CLOCAL : Z;
  PARENB : Z; CSTOPB : Z; ICANON : Z;
  VMIN : Z; VTIME : Z;
  TCSANOW : Z;
  speed_attr : string → option Z
}.

(** POSIX keeps the control-mode flags apart: the parity-enable and
    two-stop-bits flags share no bit with the character-size field, the
    receiver-enable flag or the ignore-modem-lines flag. *)
Definition cflag_bits_distinct (tm : Termios) : Prop :=
  Z.land (CS8 tm) (PARENB tm) = 0 ∧ Z.land (CREAD tm) (PARENB tm) = 0 ∧
  Z.land (CLOCAL tm) (PARENB tm) = 0 ∧
  Z.land (CS8 tm) (CSTOPB tm) = 0 ∧ Z.land (CREAD tm) (CSTOPB tm) = 0 ∧
  Z.land (CLOCAL tm) (CSTOPB tm) = 0.

Record OsModule := { O_RDWR : Z; O_NOCTTY : Z; O_NONBLOCK : Z }.

(** The system calls behind [os.open], [termios.tcgetattr],
    [termios.tcsetattr] and [os.close], on a host state [W]: each returns
    the new host state and either the exception it raises or its result. *)
Class OS (W : Type) := {
  os_open : string → Z → W → W * (exn + Z);
  tcgetattr : Z → W → W * (exn + Attrs);
  tcsetattr : Z → Z → Attrs → W → W * (exn + unit);
  os_close : Z → W → W * (exn + unit)
}.

(** ** The process: host state, call trace, output streams *)

Inductive call :=
  | COpen (path : string) (flags : Z) (r : exn + Z)
  | CGetattr (fd : Z) (r : exn + Attrs)
  | CSetattr (fd : Z) (when : Z) (a : Attrs) (r : exn + unit)
  | CClose (fd : Z) (r : exn + unit).

Record Proc (W : Type) := mk_proc {
  world : W;
  calls : list call;
  stdout : list string;
  stderr : list string
}.
Arguments mk_proc {W} _ _ _ _.
Arguments world {W} _.
Arguments calls {W} _.
Arguments stdout {W} _.
Arguments stderr {W} _.

(** How a computation ends: with a value, with an exception deriving from
    [Exception], or with [SystemExit] (raised by [sys.exit], a
    [BaseException] that [except Exception] does not catch). *)
Inductive outcome (A : Type) :=
  | Ret (a : A)
  | Raise (e : exn)
  | SystemExit (code : Z).
Arguments Ret {A} _.
Arguments Raise {A} _.
Arguments SystemExit {A} _.

Definition M (W A : Type) : Type := Proc W → Proc W * outcome A.

Definition ret {W A} (a : A) : M W A := λ p, (p, Ret a).

Definition bind {W A B} (m : M W A) (k : A → M W B) : M W B :=
  λ p, match m p with
       | (p', Ret a) => k a p'
       | (p', Raise e) => (p', Raise e)
       | (p', SystemExit c) => (p', SystemExit c)
       end.

Definition raise {W A} (e : exn) : M W A := λ p, (p, Raise e).

(** [try: body  except Exception as e: handler e] *)
Definition try_except {W A} (body : M W A) (handler : exn → M W A) : M W A :=
  λ p, match body p with
       | (p', Raise e) => handler e p'
       | r => r
       end.

#[global] Instance M_ret {W} : MRet (M W) := λ A, ret.
#[global] Instance M_bind {W} : MBind (M W) := λ A B k m, bind m k.

(** [print(line)] and [print(line, file=sys.stderr)]: one line per call. *)
Definition print {W} (line : string) : M W unit :=
  λ p, (mk_proc (world p) (calls p) (stdout p ++ [line]) (stderr p), Ret tt).

Definition print_stderr {W} (line : string) : M W unit :=
  λ p, (mk_proc (world p) (calls p) (stdout p) (stderr p ++ [line]), Ret tt).

Definition sys_exit {W A} (code : Z) : M W A := λ p, (p, SystemExit code).

(** A system call: run it on the host, record it, raise what it raised. *)
Definition syscall {W A} (f : W → W * (exn + A)) (ev : exn + A → call) : M W A :=
  λ p, let '(w', r) := f (world p) in
       (mk_proc w' (calls p ++ [ev r]) (stdout p) (stderr p),
        match r with inl e => Raise e | inr a => Ret a end).

(** ** Python list indexing *)

(** The position an index denotes in a list of [len] items: negative
    indices count from the end, anything else is out of range. *)
Definition py_index (len : nat) (i : Z) : option nat :=
  if bool_decide (0 ≤ i < Z.of_nat len) then Some (Z.to_nat i)
  else if bool_decide (- Z.of_nat len ≤ i < 0) then Some (Z.to_nat (Z.of_nat len + i))
  else None.

(** [l[i]] *)
Definition py_getitem {A} (l : list A) (i : Z) : option A :=
  n ← py_index (length l) i; l !! n.

(** [l[i] = v] *)
Definition py_setitem {W A} (l : list A) (i : Z) (v : A) : M W (list A) :=
  match py_index (length l) i with
  | Some n => ret (<[n:=v]> l)
  | None => raise (mk_exn IndexError "list assignment index out of range")
  end.

(** ** The script *)

Section Script.
Context {W : Type} `{!OS W}.
Variable om : OsModule.
Variable tm : Termios.

(** [termios.<name>] for a speed constant: the attribute, or
    [AttributeError] when the module has none of that name. *)
Definition termios_getattr (name : string) : M W Z :=
  match speed_attr tm name with
  | Some v => mret v
  | None => raise (mk_exn AttributeError
              ("module 'termios' has no attribute '" +:+ name +:+ "'"))
  end.

(** Lines 20-24: the dictionary [baudrates] after the loop over the four
    candidate rates. *)
Definition build_baudrates : gmap Z Z :=
  foldl (λ (baudrates : gmap Z Z) (rate : Z),
           let baud_attr := "B" +:+ pretty rate in
           match speed_attr tm baud_attr with
           | Some v => <[rate:=v]> baudrates
           | None => baudrates
           end)
        ∅ [115200; 230400; 460800; 921600].

Definition configure_serial_raw (port_path : string) (baudrate : Z) : M W unit :=
  try_except
    (fd ← syscall (os_open port_path (Z.lor (Z.lor (O_RDWR om) (O_NOCTTY om)) (O_NONBLOCK om)))
                  (COpen port_path (Z.lor (Z.lor (O_RDWR om) (O_NOCTTY om)) (O_NONBLOCK om)));
     attrs ← syscall (tcgetattr fd) (CGetattr fd);
     let baudrates := build_baudrates in
     baudrate ← (if bool_decide (baudrates !! baudrate = None)
                 then print ("Warning: Baudrate " +:+ pretty baudrate +:+
                             " not available, using 115200");;
                      mret 115200
                 else mret baudrate);
     B115200 ← termios_getattr "B115200";
     let baud := default B115200 (baudrates !! baudrate) in
     let 'mk_attrs iflag oflag cflag lflag ispeed ospeed cc := attrs in
     let iflag := 0 in
     let oflag := 0 in
     let cflag := Z.lor (Z.lor (CS8 tm) (CREAD tm)) (CLOCAL tm) in
     let lflag := 0 in
     cc ← py_setitem cc (VMIN tm) (CcInt 0);
     cc ← py_setitem cc (VTIME tm) (CcInt 0);
     syscall (tcsetattr fd (TCSANOW tm) (mk_attrs iflag oflag cflag lflag baud baud cc))
             (CSetattr fd (TCSANOW tm) (mk_attrs iflag oflag cflag lflag baud baud cc));;
     print ("[configure-serial] Configured " +:+ port_path +:+ " for raw binary mode");;
     print ("[configure-serial] Baud rate: " +:+ pretty baudrate);;
     print "[configure-serial] iflag=0, oflag=0, lflag=0 (all processing disabled)";;
     print "[configure-serial] VMIN=0, VTIME=0 (non-blocking)";;
     syscall (os_close fd) (CClose fd);;
     sys_exit 0)
    (λ e,
       print_stderr ("Error: " +:+ str e);;
       sys_exit 1).

(** Steps 1 to 6 of the procedure (lines 14-51): the body of the [try]
    up to and including [tcsetattr], returning the descriptor and the
    effective rate that the remaining lines use. *)
Definition steps_1_6 (port_path : string) (baudrate : Z) : M W (Z * Z) :=
  fd ← syscall (os_open port_path (Z.lor (Z.lor (O_RDWR om) (O_NOCTTY om)) (O_NONBLOCK om)))
               (COpen port_path (Z.lor (Z.lor (O_RDWR om) (O_NOCTTY om)) (O_NONBLOCK om)));
  attrs ← syscall (tcgetattr fd) (CGetattr fd);
  let baudrates := build_baudrates in
  baudrate ← (if bool_decide (baudrates !! baudrate = None)
              then print ("Warning: Baudrate " +:+ pretty baudrate +:+
                          " not available, using 115200");;
                   mret 115200
              else mret baudrate);
  B115200 ← termios_getattr "B115200";
  let baud := default B115200 (baudrates !! baudrate) in
  let 'mk_attrs iflag oflag cflag lflag ispeed ospeed cc := attrs in
  let iflag := 0 in
  let oflag := 0 in
  let cflag := Z.lor (Z.lor (CS8 tm) (CREAD tm)) (CLOCAL tm) in
  let lflag := 0 in
  cc ← py_setitem cc (VMIN tm) (CcInt 0);
  cc ← py_setitem cc (VTIME tm) (CcInt 0);
  syscall (tcsetattr fd (TCSANOW tm) (mk_attrs iflag oflag cflag lflag baud baud cc))
          (CSetattr fd (TCSANOW tm) (mk_attrs iflag oflag cflag lflag baud baud cc));;
  mret (fd, baudrate).

(** Steps 7 to 9 (lines 53-59). *)
Definition steps_7_9 (port_path : string) (fd baudrate : Z) : M W unit :=
  print ("[configure-serial] Configured " +:+ port_path +:+ " for raw binary mode");;
  print ("[configure-serial] Baud rate: " +:+ pretty baudrate);;
  print "[configure-serial] iflag=0, oflag=0, lflag=0 (all processing disabled)";;
  print "[configure-serial] VMIN=0, VTIME=0 (non-blocking)";;
  syscall (os_close fd) (CClose fd);;
  sys_exit 0.

(** The builtin [int] on a command-line string: the integer, or the
    [ValueError] it raises. *)
Variable py_int : string → exn + Z.

(** The [__main__] block, on [sys.argv].  Under each length test the
    index is in range, so the [default] of the lookup is never used. *)
Definition main (argv : list string) : M W unit :=
  let port := if bool_decide (1 < length argv)%nat
              then default "" (argv !! 1%nat) else "/dev/ttyS0" in
  baud ← (if bool_decide (2 < length argv)%nat
          then match py_int (default "" (argv !! 2%nat)) with
               | inr n => mret n
               | inl e => raise e
               end
          else mret 115200);
  configure_serial_raw port baud.

End Script.

(** A fresh process on host state [w]: nothing called, nothing printed. *)
Definition start {W} (w : W) : Proc W := mk_proc w [] [] [].

(** The attribute records the run handed to a [tcsetattr] that succeeded,
    and the snapshots a successful [tcgetattr] returned. *)
Definition applied (cs : list call) : list Attrs :=
  omap (λ c, match c with CSetattr _ _ a (inr _) => Some a | _ => None end) cs.

Definition snapshots (cs : list call) : list Attrs :=
  omap (λ c, match c with CGetattr _ (inr a) => Some a | _ => None end) cs.

(** Whether a recorded call returned normally. *)
Definition call_ok (c : call) : bool :=
  match c with
  | COpen _ _ (inr _) | CGetattr _ (inr _) | CSetattr _ _ _ (inr _) | CClose _ (inr _) => true
  | _ => false
  end.

(** Descriptors a successful [os.open] returned and no [os.close] call was
    made on afterwards. *)
Fixpoint unreleased (cs : list call) (held : list Z) : list Z :=
  match cs with
  | [] => held
  | COpen _ _ (inr fd) :: cs' => unreleased cs' (held ++ [fd])
  | CClose fd _ :: cs' => unreleased cs' (filter (λ x, x ≠ fd) held)
  | _ :: cs' => unreleased cs' held
  end.

(** ** A simulated host

    Device nodes are terminals (with the kernel's [struct termios]) or
    other files; descriptors name the node they were opened on.  The four
    calls follow the C wrappers of CPython's [os] and [termios] modules.
    [cbaud] is the set of bits of [c_cflag] in which the host's C library
    keeps the line speed (CBAUD | CBAUDEX with glibc on Linux), or 0 where
    the speeds are fields of their own (Darwin). *)

Record tty := mk_tty {
  c_iflag : Z; c_oflag : Z; c_cflag : Z; c_lflag : Z;
  c_ispeed : Z; c_ospeed : Z;
  c_cc : list Z
}.

Inductive node :=
  | Terminal (t : tty)
  | NotTerminal.

Record Sim := mk_sim {
  nodes : gmap string node;
  fdtab : gmap Z string;
  cbaud : Z
}.

Module SimHost.
Section SimHost.
Variable tm : Termios.

(** The lowest descriptor above the standard streams that is free. *)
Definition lowest_free (tab : gmap Z string) : Z :=
  default (3 + Z.of_nat (size tab))
    (find (λ fd, bool_decide (tab !! fd = None)) (seqZ 3 (Z.of_nat (size tab)))).

Definition sim_open (path : string) (flags : Z) (s : Sim) : Sim * (exn + Z) :=
  match nodes s !! path with
  | None =>
      (s, inl (mk_exn OSError
                 ("[Errno 2] No such file or directory: '" +:+ path +:+ "'")))
  | Some _ =>
      let fd := lowest_free (fdtab s) in
      (mk_sim (nodes s) (<[fd:=path]> (fdtab s)) (cbaud s), inr fd)
  end.

(** The terminal behind a descriptor, or the [termios.error] raised. *)
Definition sim_tty (fd : Z) (s : Sim) : exn + (string * tty) :=
  match fdtab s !! fd with
  | None => inl (mk_exn TermiosError "(9, 'Bad file descriptor')")
  | Some path =>
      match nodes s !! path with
      | Some (Terminal t) => inr (path, t)
      | _ => inl (mk_exn TermiosError "(25, 'Inappropriate ioctl for device')")
      end
  end.

(** [tcgetattr] returns the control characters as [bytes] of length one,
    and VMIN and VTIME as integers when ICANON is off. *)
Definition cc_to_python (t : tty) : list cc_entry :=
  let cc := CcBytes <$> c_cc t in
  if bool_decide (Z.land (c_lflag t) (ICANON tm) = 0)
  then <[Z.to_nat (VTIME tm) := CcInt (default 0 (c_cc t !! Z.to_nat (VTIME tm)))]>
         (<[Z.to_nat (VMIN tm) := CcInt (default 0 (c_cc t !! Z.to_nat (VMIN tm)))]> cc)
  else cc.

Definition sim_tcgetattr (fd : Z) (s : Sim) : Sim * (exn + Attrs) :=
  match sim_tty fd s with
  | inl e => (s, inl e)
  | inr (_, t) =>
      (s, inr (mk_attrs (c_iflag t) (c_oflag t) (c_cflag t) (c_lflag t)
                        (c_ispeed t) (c_ospeed t) (cc_to_python t)))
  end.

(** [tcsetattr] wants as many control characters as the kernel has
    (NCCS), and stores an integer entry as a [cc_t]. *)
Definition cc_of_python (e : cc_entry) : Z :=
  match e with
  | CcBytes b => b
  | CcInt n => n `mod` 256
  end.

(** What [cfsetispeed] and [cfsetospeed] make of the record's control
    flags and speeds: with speed bits [m] in [c_cflag], those bits are
    replaced by the output speed and both speeds are read back from them;
    with [m = 0] flags and speeds are stored as given. *)
Definition store_speed (m : Z) (a : Attrs) : Z * Z * Z :=
  if bool_decide (m = 0) then (cflag a, ispeed a, ospeed a)
  else
    let c := Z.lor (Z.land (cflag a) (Z.lnot m)) (ospeed a) in
    (c, Z.land c m, Z.land c m).

(** [tcsetattr] wants as many control characters as the kernel has, and
    speeds the C library knows (they fit the speed bits, where it has
    them). *)
Definition sim_tcsetattr (fd when : Z) (a : Attrs) (s : Sim) : Sim * (exn + unit) :=
  match sim_tty fd s with
  | inl e => (s, inl e)
  | inr (path, t) =>
      if bool_decide (length (cc a) = length (c_cc t))
      then
        if bool_decide (cbaud s = 0 ∨
                        (Z.land (ispeed a) (Z.lnot (cbaud s)) = 0 ∧
                         Z.land (ospeed a) (Z.lnot (cbaud s)) = 0))
        then
          let '(c, i, o) := store_speed (cbaud s) a in
          (mk_sim (<[path := Terminal (mk_tty (iflag a) (oflag a) c (lflag a) i o
                                              (cc_of_python <$> cc a))]> (nodes s))
                  (fdtab s) (cbaud s),
           inr tt)
        else (s, inl (mk_exn TermiosError "(22, 'Invalid argument')"))
      else (s, inl (mk_exn TypeError
                      ("tcsetattr: attributes[6] must be " +:+
                       pretty (length (c_cc t)) +:+ " element list")))
  end.

Definition sim_close (fd : Z) (s : Sim) : Sim * (exn + unit) :=
  match fdtab s !! fd with
  | None => (s, inl (mk_exn OSError "[Errno 9] Bad file descriptor"))
  | Some _ => (mk_sim (nodes s) (delete fd (fdtab s)) (cbaud s), inr tt)
  end.

#[export] Instance sim_os : OS Sim := {
  os_open := sim_open;
  tcgetattr := sim_tcgetattr;
  tcsetattr := sim_tcsetattr;
  os_close := sim_close
}.
End SimHost.
End SimHost.

(** The [termios] and [os] constants of Linux (asm-generic) and of Darwin;
    Darwin has no speed constant above B230400. *)
Definition linux_termios : Termios := {|
  CS8 := 48; CREAD := 128; CLOCAL := 2048;
  PARENB := 256; CSTOPB := 64; ICANON := 2;
  VMIN := 6; VTIME := 5;
  TCSANOW := 0;
  speed_attr := λ name,
    if String.eqb name "B115200" then Some 4098
    else if String.eqb name "B230400" then Some 4099
    else if String.eqb name "B460800" then Some 4100
    else if String.eqb name "B921600" then Some 4103
    else None
|}.

Definition linux_os : OsModule := {| O_RDWR := 2; O_NOCTTY := 256; O_NONBLOCK := 2048 |}.

Definition darwin_termios : Termios := {|
  CS8 := 768; CREAD := 2048; CLOCAL := 32768;
  PARENB := 4096; CSTOPB := 1024; ICANON := 256;
  VMIN := 16; VTIME := 17;
  TCSANOW := 0;
  speed_attr := λ name,
    if String.eqb name "B115200" then Some 115200
    else if String.eqb name "B230400" then Some 230400
    else None
|}.

Definition darwin_os : OsModule := {| O_RDWR := 2; O_NOCTTY := 131072; O_NONBLOCK := 4 |}.

(** A host like Linux whose [termios] module lacks [B115200]. *)
Definition no_b115200_termios : Termios := {|
  CS8 := 48; CREAD := 128; CLOCAL := 2048;
  PARENB := 256; CSTOPB := 64; ICANON := 2;
  VMIN := 6; VTIME := 5;
  TCSANOW := 0;
  speed_attr := λ name, if String.eqb name "B230400" then Some 4099 else None
|}.

(** A Linux serial line in its default (cooked) state, 9600 baud. *)
Definition cooked_tty : tty := {|
  c_iflag := 1280; c_oflag := 5; c_cflag := 3261; c_lflag := 35387;
  c_ispeed := 13; c_ospeed := 13;
  c_cc := [3; 28; 127; 21; 4; 0; 1; 0; 17; 19; 26; 0; 18; 15; 23; 22;
           0; 0; 0; 0; 0; 0; 0; 0; 0; 0; 0; 0; 0; 0; 0; 0]
|}.

(** The same line with another interrupt character. *)
Definition cooked_tty' : tty := {|
  c_iflag := 1280; c_oflag := 5; c_cflag := 3261; c_lflag := 35387;
  c_ispeed := 13; c_ospeed := 13;
  c_cc := [7; 28; 127; 21; 4; 0; 1; 0; 17; 19; 26; 0; 18; 15; 23; 22;
           0; 0; 0; 0; 0; 0; 0; 0; 0; 0; 0; 0; 0; 0; 0; 0]
|}.

Definition sim_linux : Sim :=
  mk_sim (<["/dev/ttyS0" := Terminal cooked_tty]> (<["/dev/null" := NotTerminal]> ∅)) ∅ 4111.

Definition sim_linux' : Sim :=
  mk_sim (<["/dev/ttyS0" := Terminal cooked_tty']> (<["/dev/null" := NotTerminal]> ∅)) ∅ 4111.

(** ** The builtin [int] on ASCII text

    Surrounding whitespace is dropped, one sign is allowed, and the digits
    may be grouped by single underscores; anything else is a [ValueError].
    (The message quotes the argument as [repr] does for text without
    quotes or escapes.) *)

Fixpoint lstrip (s : string) : string :=
  match s with
  | String c r => if Ascii.is_space c then lstrip r else s
  | EmptyString => EmptyString
  end.

Definition strip (s : string) : string :=
  String.rev (lstrip (String.rev (lstrip s))).

Fixpoint digits (s : string) (acc : Z) (after_digit : bool) : option Z :=
  match s with
  | EmptyString => if after_digit then Some acc else None
  | String c r =>
      match Ascii.is_nat c with
      | Some d => digits r (10 * acc + Z.of_nat d) true
      | None =>
          if bool_decide (c = "_"%char) && after_digit then digits r acc false else None
      end
  end.

Definition int_ascii (s : string) : exn + Z :=
  let t := strip s in
  let '(negative, body) :=
    match t with
    | String "+" r => (false, r)
    | String "-" r => (true, r)
    | _ => (false, t)
    end in
  match digits body 0 false with
  | Some n => inr (if negative then - n else n)
  | None => inl (mk_exn ValueError
                   ("invalid literal for int() with base 10: '" +:+ s +:+ "'"))
  end.

(** The script on the simulated host. *)
Definition sim_run (om : OsModule) (tm : Termios) (port_path : string) (baudrate : Z) (s : Sim)
  : Proc Sim * outcome unit :=
  configure_serial_raw (OS0:=SimHost.sim_os tm) om tm port_path baudrate (start s).

(** A Darwin serial line in its default state, 9600 baud. *)
Definition darwin_tty : tty := {|
  c_iflag := 11010; c_oflag := 3; c_cflag := 19200; c_lflag := 1483;
  c_ispeed := 9600; c_ospeed := 9600;
  c_cc := [4; 255; 255; 127; 23; 21; 18; 255; 3; 28; 26; 25; 17; 19; 22; 15;
           1; 0; 20; 255]
|}.

Definition sim_darwin : Sim :=
  mk_sim (<["/dev/cu.usbserial" := Terminal darwin_tty]> ∅) ∅ 0.

(** Sample invocations. *)
Definition linux_raw_run : Proc Sim * outcome unit :=
  sim_run linux_os linux_termios "/dev/ttyS0" 115200 sim_linux.

Definition linux_raw_run' : Proc Sim * outcome unit :=
  sim_run linux_os linux_termios "/dev/ttyS0" 115200 sim_linux'.

Definition linux_fast_run : Proc Sim * outcome unit :=
  sim_run linux_os linux_termios "/dev/ttyS0" 921600 sim_linux.

Definition linux_second_run : Proc Sim * outcome unit :=
  sim_run linux_os linux_termios "/dev/ttyS0" 115200 (world linux_raw_run.1).

Definition dev_null_run : Proc Sim * outcome unit :=
  sim_run linux_os linux_termios "/dev/null" 115200 sim_linux.

Definition darwin_exotic_run : Proc Sim * outcome unit :=
  sim_run darwin_os darwin_termios "/dev/cu.usbserial" 460800 sim_darwin.

Definition darwin_default_run : Proc Sim * outcome unit :=
  sim_run darwin_os darwin_termios "/dev/cu.usbserial" 115200 sim_darwin.

Definition no_b115200_run : Proc Sim * outcome unit :=
  sim_run linux_os no_b115200_termios "/dev/ttyS0" 9600 sim_linux.

(** The record the script applies to [cooked_tty] (and, but for the
    interrupt character, to [cooked_tty']) at 115200 baud on Linux. *)
Definition linux_raw_record : Attrs :=
  mk_attrs 0 0 2224 0 4098 4098
           (<[5%nat:=CcInt 0]> (<[6%nat:=CcInt 0]> (CcBytes <$> c_cc cooked_tty))).

Definition linux_raw_record' : Attrs :=
  mk_attrs 0 0 2224 0 4098 4098
           (<[5%nat:=CcInt 0]> (<[6%nat:=CcInt 0]> (CcBytes <$> c_cc cooked_tty'))).

(** [sys.argv] of [configure-serial.py /dev/ttyS0 fast]. *)
Definition argv_fast : list string := ["configure-serial.py"; "/dev/ttyS0"; "fast"].

(** The simulated host with an [os.close] that fails (an I/O error when
    the descriptor is given back). *)
Definition sim_os_close_fails (tm : Termios) : OS Sim := {|
  os_open := SimHost.sim_open;
  tcgetattr := SimHost.sim_tcgetattr tm;
  tcsetattr := SimHost.sim_tcsetattr;
  os_close := λ fd s, (s, inl (mk_exn OSError "[Errno 5] Input/output error"))
|}.

Definition close_fails_run : Proc Sim * outcome unit :=
  configure_serial_raw (OS0:=sim_os_close_fails linux_termios) linux_os linux_termios
    "/dev/ttyS0" 230400 (start sim_linux).

(** A supported rate requested on the host without B115200. *)
Definition no_b115200_supported_run : Proc Sim * outcome unit :=
  sim_run linux_os no_b115200_termios "/dev/ttyS0" 230400 sim_linux.


Definition darwin_snapshot : Attrs :=
  mk_attrs 11010 3 19200 1483 9600 9600 (CcBytes <$> c_cc darwin_tty).

Definition linux_second_snapshot : Attrs :=
  mk_attrs 0 0 6322 0 4098 4098 (cc linux_raw_record).


Definition sim_darwin_opened : Sim :=
  (SimHost.sim_open "/dev/cu.usbserial" 131078 sim_darwin).1.


(** [configure-serial.py] started without arguments on the simulated
    Linux host. *)
Definition default_main_run : Proc Sim * outcome unit :=
  main (OS0:=SimHost.sim_os linux_termios) linux_os linux_termios int_ascii
       ["configure-serial.py"] (start sim_linux).

(** ** Shape of a run *)

Section Run.
Context {W : Type} `{!OS W}.
Variable om : OsModule.
Variable tm : Termios.

(** The script started as a fresh process on host state [w]. *)
Definition run (port_path : string) (baudrate : Z) (w : W) : Proc W * outcome unit :=
  configure_serial_raw om tm port_path baudrate (start w).

Definition open_flags : Z := Z.lor (Z.lor (O_RDWR om) (O_NOCTTY om)) (O_NONBLOCK om).

Definition warning_line (baudrate : Z) : string :=
  "Warning: Baudrate " +:+ pretty baudrate +:+ " not available, using 115200".

(** What lines 26-28 print, and the rate they leave in [baudrate]. *)
Definition warning (baudrate : Z) : list string :=
  if bool_decide (build_baudrates tm !! baudrate = None) then [warning_line baudrate] else [].

Definition effective_rate (baudrate : Z) : Z :=
  if bool_decide (build_baudrates tm !! baudrate = None) then 115200 else baudrate.

Definition confirmation (port_path : string) (rate : Z) : list string :=
  [ "[configure-serial] Configured " +:+ port_path +:+ " for raw binary mode";
    "[configure-serial] Baud rate: " +:+ pretty rate;
    "[configure-serial] iflag=0, oflag=0, lflag=0 (all processing disabled)";
    "[configure-serial] VMIN=0, VTIME=0 (non-blocking)" ].

(** The record of line 51, from the snapshot [a0], the resolved speed
    constant and the positions VMIN and VTIME denote in the table. *)
Definition raw_profile (baud : Z) (n1 n2 : nat) (a0 : Attrs) : Attrs :=
  mk_attrs 0 0 (Z.lor (Z.lor (CS8 tm) (CREAD tm)) (CLOCAL tm)) 0 baud baud
           (<[n2:=CcInt 0]> (<[n1:=CcInt 0]> (cc a0))).

(** The end of every path through the handler. *)
Definition failed (w : W) (cs : list call) (out : list string) (e : exn)
  : Proc W * outcome unit :=
  (mk_proc w cs out ["Error: " +:+ str e], SystemExit 1).

Definition no_B115200 : exn :=
  mk_exn AttributeError "module 'termios' has no attribute 'B115200'".

Definition index_error : exn :=
  mk_exn IndexError "list assignment index out of range".

(** The run as a decision tree over the results of the system calls. *)
Definition run_tree (port_path : string) (baudrate : Z) (w : W) : Proc W * outcome unit :=
  let c1 := COpen port_path open_flags in
  match os_open port_path open_flags w with
  | (w1, inl e) => failed w1 [c1 (inl e)] [] e
  | (w1, inr fd) =>
    match tcgetattr fd w1 with
    | (w2, inl e) => failed w2 [c1 (inr fd); CGetattr fd (inl e)] [] e
    | (w2, inr a0) =>
      let cs := [c1 (inr fd); CGetattr fd (inr a0)] in
      match speed_attr tm "B115200" with
      | None => failed w2 cs (warning baudrate) no_B115200
      | Some b =>
        match py_index (length (cc a0)) (VMIN tm), py_index (length (cc a0)) (VTIME tm) with
        | Some n1, Some n2 =>
          let a := raw_profile (default b (build_baudrates tm !! effective_rate baudrate))
                               n1 n2 a0 in
          match tcsetattr fd (TCSANOW tm) a w2 with
          | (w3, inl e) =>
              failed w3 (cs ++ [CSetattr fd (TCSANOW tm) a (inl e)]) (warning baudrate) e
          | (w3, inr u) =>
            let out := warning baudrate ++ confirmation port_path (effective_rate baudrate) in
            match os_close fd w3 with
            | (w4, inl e) =>
                failed w4 (cs ++ [CSetattr fd (TCSANOW tm) a (inr u); CClose fd (inl e)]) out e
            | (w4, inr u') =>
                (mk_proc w4 (cs ++ [CSetattr fd (TCSANOW tm) a (inr u); CClose fd (inr u')])
                         out [],
                 SystemExit 0)
            end
          end
        | _, _ => failed w2 cs (warning baudrate) index_error
        end
      end
    end
  end.

(** Steps 1 to 6 as a decision tree: the process they leave and either
    the fault they raise or the descriptor and effective rate. *)
Definition steps_tree (port_path : string) (baudrate : Z) (w : W)
  : Proc W * outcome (Z * Z) :=
  let c1 := COpen port_path open_flags in
  match os_open port_path open_flags w with
  | (w1, inl e) => (mk_proc w1 [c1 (inl e)] [] [], Raise e)
  | (w1, inr fd) =>
    match tcgetattr fd w1 with
    | (w2, inl e) => (mk_proc w2 [c1 (inr fd); CGetattr fd (inl e)] [] [], Raise e)
    | (w2, inr a0) =>
      let cs := [c1 (inr fd); CGetattr fd (inr a0)] in
      match speed_attr tm "B115200" with
      | None => (mk_proc w2 cs (warning baudrate) [], Raise no_B115200)
      | Some b =>
        match py_index (length (cc a0)) (VMIN tm), py_index (length (cc a0)) (VTIME tm) with
        | Some n1, Some n2 =>
          let a := raw_profile (default b (build_baudrates tm !! effective_rate baudrate))
                               n1 n2 a0 in
          match tcsetattr fd (TCSANOW tm) a w2 with
          | (w3, inl e) =>
              (mk_proc w3 (cs ++ [CSetattr fd (TCSANOW tm) a (inl e)]) (warning baudrate) [],
               Raise e)
          | (w3, inr u) =>
              (mk_proc w3 (cs ++ [CSetattr fd (TCSANOW tm) a (inr u)]) (warning baudrate) [],
               Ret (fd, effective_rate baudrate))
          end
        | _, _ => (mk_proc w2 cs (warning baudrate) [], Raise index_error)
        end
      end
    end
  end.

(** * Properties *)

Lemma run_unfold port_path baudrate w :
  run port_path baudrate w = run_tree port_path baudrate w.
Proof.
  unfold run, run_tree, configure_serial_raw, try_except, mbind, M_bind, bind,
    syscall, start, failed, warning, effective_rate, termios_getattr, py_setitem,
    print, print_stderr, sys_exit, mret, M_ret, ret, raise, open_flags.
  cbn [world calls stdout stderr].
  destruct (os_open _ _ w) as [w1 [e|fd]]; [reflexivity|].
  cbn [world calls stdout stderr].
  destruct (tcgetattr fd w1) as [w2 [e|a0]]; [reflexivity|].
  destruct a0 as [i0 o0 c0 l0 is0 os0 cc0]. cbn [cc].
  destruct (bool_decide (build_baudrates tm !! baudrate = None));
    cbn [world calls stdout stderr];
    (destruct (speed_attr tm "B115200") as [b|]; [|reflexivity]);
    (destruct (py_index (length cc0) (VMIN tm)) as [n1|]; [|reflexivity]);
    rewrite length_insert;
    (destruct (py_index (length cc0) (VTIME tm)) as [n2|]; [|reflexivity]);
    unfold raw_profile; cbn [cc world calls stdout stderr];
    (destruct (tcsetattr _ _ _ w2) as [w3 [e|u]]; [reflexivity|]);
    cbn [world calls stdout stderr];
    (destruct (os_close fd w3) as [w4 [e|u']]; reflexivity).
Qed.

Lemma steps_unfold port_path baudrate w :
  steps_1_6 om tm port_path baudrate (start w) = steps_tree port_path baudrate w.
Proof.
  unfold steps_tree, steps_1_6, mbind, M_bind, bind,
    syscall, start, warning, effective_rate, termios_getattr, py_setitem,
    print, mret, M_ret, ret, raise, open_flags.
  cbn [world calls stdout stderr].
  destruct (os_open _ _ w) as [w1 [e|fd]]; [reflexivity|].
  cbn [world calls stdout stderr].
  destruct (tcgetattr fd w1) as [w2 [e|a0]]; [reflexivity|].
  destruct a0 as [i0 o0 c0 l0 is0 os0 cc0]. cbn [cc].
  destruct (bool_decide (build_baudrates tm !! baudrate = None));
    cbn [world calls stdout stderr];
    (destruct (speed_attr tm "B115200") as [b|]; [|reflexivity]);
    (destruct (py_index (length cc0) (VMIN tm)) as [n1|]; [|reflexivity]);
    rewrite length_insert;
    (destruct (py_index (length cc0) (VTIME tm)) as [n2|]; [|reflexivity]);
    unfold raw_profile; cbn [cc world calls stdout stderr];
    (destruct (tcsetattr _ _ _ w2) as [w3 [e|u]]; reflexivity).
Qed.

(** The procedure is its steps 1 to 6, then 7 to 9, under the handler. *)
Lemma configure_serial_raw_steps port_path baudrate (p : Proc W) :
  configure_serial_raw om tm port_path baudrate p =
  try_except (x ← steps_1_6 om tm port_path baudrate; steps_7_9 port_path x.1 x.2)
             (λ e, print_stderr ("Error: " +:+ str e);; sys_exit 1) p.
Proof.
  unfold configure_serial_raw, steps_1_6, steps_7_9, try_except, mbind, M_bind, bind,
    syscall, termios_getattr, py_setitem, print, mret, M_ret, ret, raise.
  destruct (os_open _ _ (world p)) as [w1 [e|fd]]; [reflexivity|].
  cbn [world calls stdout stderr].
  destruct (tcgetattr fd w1) as [w2 [e|a0]]; [reflexivity|].
  destruct a0 as [i0 o0 c0 l0 is0 os0 cc0].
  destruct (bool_decide (build_baudrates tm !! baudrate = None));
    cbn [world calls stdout stderr];
    (destruct (speed_attr tm "B115200") as [b|]; [|reflexivity]);
    (destruct (py_index (length cc0) (VMIN tm)) as [n1|]; [|reflexivity]);
    (destruct (py_index (length (<[n1:=CcInt 0]> cc0)) (VTIME tm)) as [n2|]; [|reflexivity]);
    cbn [world calls stdout stderr];
    (destruct (tcsetattr _ _ _ w2) as [w3 [e|u]]; reflexivity).
Qed.

(** The dictionary of lines 20-24, by key. *)
Lemma baudrates_lookup (r : Z) :
  build_baudrates tm !! r =
    if bool_decide (r = 115200) then speed_attr tm "B115200"
    else if bool_decide (r = 230400) then speed_attr tm "B230400"
    else if bool_decide (r = 460800) then speed_attr tm "B460800"
    else if bool_decide (r = 921600) then speed_attr tm "B921600"
    else None.
Proof.
  unfold build_baudrates. cbn [foldl].
  change ("B" +:+ pretty 115200) with "B115200".
  change ("B" +:+ pretty 230400) with "B230400".
  change ("B" +:+ pretty 460800) with "B460800".
  change ("B" +:+ pretty 921600) with "B921600".
  destruct (speed_attr tm "B115200"), (speed_attr tm "B230400"),
    (speed_attr tm "B460800"), (speed_attr tm "B921600");
    repeat case_bool_decide; subst; simplify_map_eq; done.
Qed.

(** ** What any run that applies a record looks like *)

Lemma py_index_lt (len : nat) (i : Z) (n : nat) :
  py_index len i = Some n → (n < len)%nat.
Proof.
  unfold py_index. repeat case_bool_decide; intros [= <-]; lia.
Qed.

Lemma run_applied port baud w pf out a :
  run port baud w = (pf, out) →
  a ∈ applied (calls pf) →
  ∃ a0 b n1 n2,
    snapshots (calls pf) = [a0] ∧ applied (calls pf) = [a] ∧
    speed_attr tm "B115200" = Some b ∧
    py_index (length (cc a0)) (VMIN tm) = Some n1 ∧
    py_index (length (cc a0)) (VTIME tm) = Some n2 ∧
    a = raw_profile (default b (build_baudrates tm !! effective_rate baud)) n1 n2 a0.
Proof.
  rewrite run_unfold. unfold run_tree, failed.
  destruct (os_open _ _ w) as [w1 [e|fd]].
  { intros [= <- <-]. cbn. by intros ?%elem_of_nil. }
  destruct (tcgetattr fd w1) as [w2 [e|a0]].
  { intros [= <- <-]. cbn. by intros ?%elem_of_nil. }
  destruct (speed_attr tm "B115200") as [b|] eqn:Hb.
  2:{ intros [= <- <-]. cbn. by intros ?%elem_of_nil. }
  destruct (py_index _ (VMIN tm)) as [n1|] eqn:Hn1.
  2:{ intros [= <- <-]. cbn. by intros ?%elem_of_nil. }
  destruct (py_index _ (VTIME tm)) as [n2|] eqn:Hn2.
  2:{ intros [= <- <-]. cbn. by intros ?%elem_of_nil. }
  destruct (tcsetattr _ _ _ w2) as [w3 [e|u]].
  { intros [= <- <-]. cbn. by intros ?%elem_of_nil. }
  destruct (os_close fd w3) as [w4 [e|u']];
    intros [= <- <-]; cbn; intros ->%list_elem_of_singleton;
    exists a0, b, n1, n2; done.
Qed.

Lemma run_success port baud w pf :
  run port baud w = (pf, SystemExit 0) →
  ∃ w1 fd w2 a0 b n1 n2 w3 w4,
    os_open port open_flags w = (w1, inr fd) ∧
    tcgetattr fd w1 = (w2, inr a0) ∧
    speed_attr tm "B115200" = Some b ∧
    py_index (length (cc a0)) (VMIN tm) = Some n1 ∧
    py_index (length (cc a0)) (VTIME tm) = Some n2 ∧
    let a := raw_profile (default b (build_baudrates tm !! effective_rate baud)) n1 n2 a0 in
    tcsetattr fd (TCSANOW tm) a w2 = (w3, inr tt) ∧
    os_close fd w3 = (w4, inr tt) ∧
    pf = mk_proc w4
           [COpen port open_flags (inr fd); CGetattr fd (inr a0);
            CSetattr fd (TCSANOW tm) a (inr tt); CClose fd (inr tt)]
           (warning baud ++ confirmation port (effective_rate baud)) [].
Proof.
  rewrite run_unfold. unfold run_tree, failed.
  destruct (os_open _ _ w) as [w1 [e|fd]] eqn:Hopen; [done|].
  destruct (tcgetattr fd w1) as [w2 [e|a0]] eqn:Hget; [done|].
  destruct (speed_attr tm "B115200") as [b|] eqn:Hb; [|done].
  destruct (py_index _ (VMIN tm)) as [n1|] eqn:Hn1; [|done].
  destruct (py_index _ (VTIME tm)) as [n2|] eqn:Hn2; [|done].
  destruct (tcsetattr _ _ _ w2) as [w3 [e|[]]] eqn:Hset; [done|].
  destruct (os_close fd w3) as [w4 [e|[]]] eqn:Hclose; [done|].
  intros [= <-]. exists w1, fd, w2, a0, b, n1, n2, w3, w4. done.
Qed.

(** When open and [tcgetattr] succeed, the host has B115200, VMIN and
    VTIME index the snapshot's table and [tcsetattr] accepts the record,
    the run is decided by [os.close] alone. *)
Lemma run_applies port baud w w1 fd w2 a0 b n1 n2 w3 :
  os_open port open_flags w = (w1, inr fd) →
  tcgetattr fd w1 = (w2, inr a0) →
  speed_attr tm "B115200" = Some b →
  py_index (length (cc a0)) (VMIN tm) = Some n1 →
  py_index (length (cc a0)) (VTIME tm) = Some n2 →
  tcsetattr fd (TCSANOW tm)
    (raw_profile (default b (build_baudrates tm !! effective_rate baud)) n1 n2 a0) w2
    = (w3, inr tt) →
  run port baud w =
    let a := raw_profile (default b (build_baudrates tm !! effective_rate baud)) n1 n2 a0 in
    let cs := [COpen port open_flags (inr fd); CGetattr fd (inr a0);
               CSetattr fd (TCSANOW tm) a (inr tt)] in
    let out := warning baud ++ confirmation port (effective_rate baud) in
    match os_close fd w3 with
    | (w4, inl e) => failed w4 (cs ++ [CClose fd (inl e)]) out e
    | (w4, inr u) => (mk_proc w4 (cs ++ [CClose fd (inr u)]) out [], SystemExit 0)
    end.
Proof.
  intros Hopen Hget Hb Hn1 Hn2 Hset.
  rewrite run_unfold. unfold run_tree.
  rewrite Hopen, Hget, Hb, Hn1, Hn2. cbv zeta. rewrite Hset. reflexivity.
Qed.

(** The speed constant line 29 resolves. *)
Lemma resolved_supported baud c b :
  build_baudrates tm !! baud = Some c →
  default b (build_baudrates tm !! effective_rate baud) = c.
Proof.
  intros Hc. unfold effective_rate.
  rewrite bool_decide_eq_false_2 by congruence. by rewrite Hc.
Qed.

Lemma resolved_fallback baud b :
  build_baudrates tm !! baud = None →
  speed_attr tm "B115200" = Some b →
  default b (build_baudrates tm !! effective_rate baud) = b.
Proof.
  intros Hn Hb. unfold effective_rate.
  rewrite bool_decide_eq_true_2 by done.
  rewrite baudrates_lookup, bool_decide_eq_true_2 by done. by rewrite Hb.
Qed.

(** ** The applied record *)

Lemma raw_profile_getitem baud n1 n2 a0 i n :
  py_index (length (cc a0)) (VMIN tm) = Some n1 →
  py_index (length (cc a0)) (VTIME tm) = Some n2 →
  py_index (length (cc a0)) i = Some n →
  n = n1 ∨ n = n2 →
  py_getitem (cc (raw_profile baud n1 n2 a0)) i = Some (CcInt 0).
Proof.
  intros H1%py_index_lt H2%py_index_lt Hi Hn.
  unfold py_getitem, raw_profile. cbn [cc].
  rewrite !length_insert, Hi. cbn.
  destruct (decide (n = n2)) as [-> | Hne].
  - apply list_lookup_insert_eq. by rewrite length_insert.
  - destruct Hn as [-> | ->]; [|done].
    rewrite list_lookup_insert_ne by done. by apply list_lookup_insert_eq.
Qed.

(** C1: in every successful run the record handed to [tcsetattr] has input,
    output and local flags 0 and control flags exactly CS8 | CREAD | CLOCAL;
    with the control-mode flags of the host kept apart as POSIX has them,
    neither the parity-enable nor the two-stop-bits bit is set. *)
Theorem C1_raw_flag_profile port baud w pf :
  run port baud w = (pf, SystemExit 0) →
  ∃ a, applied (calls pf) = [a] ∧
       iflag a = 0 ∧ oflag a = 0 ∧ lflag a = 0 ∧
       cflag a = Z.lor (Z.lor (CS8 tm) (CREAD tm)) (CLOCAL tm) ∧
       (cflag_bits_distinct tm →
        Z.land (cflag a) (PARENB tm) = 0 ∧ Z.land (cflag a) (CSTOPB tm) = 0).
Proof.
  intros Hrun. apply run_success in Hrun
    as (w1 & fd & w2 & a0 & b & n1 & n2 & w3 & w4 & _ & _ & _ & _ & _ & _ & _ & ->).
  eexists. split; [reflexivity|]. cbn [iflag oflag lflag cflag raw_profile].
  do 4 (split; [reflexivity|]).
  intros (H1 & H2 & H3 & H4 & H5 & H6).
  rewrite !Z.land_lor_distr_l, H1, H2, H3, H4, H5, H6. done.
Qed.

(** C2: in every successful run the control-character list of the applied
    record reads 0 at index VMIN and 0 at index VTIME. *)
Theorem C2_vmin_vtime_zero port baud w pf :
  run port baud w = (pf, SystemExit 0) →
  ∃ a, applied (calls pf) = [a] ∧
       py_getitem (cc a) (VMIN tm) = Some (CcInt 0) ∧
       py_getitem (cc a) (VTIME tm) = Some (CcInt 0).
Proof.
  intros Hrun. apply run_success in Hrun
    as (w1 & fd & w2 & a0 & b & n1 & n2 & w3 & w4 & _ & _ & _ & Hn1 & Hn2 & _ & _ & ->).
  eexists. split; [reflexivity|].
  split; eapply raw_profile_getitem; eauto.
Qed.


(** C9: whenever the run applies a record, its control-character list has
    the length of the snapshot's and the snapshot's entry at every position
    other than the two that VMIN and VTIME denote. *)
Theorem C9_other_control_characters_kept port baud w pf out a :
  run port baud w = (pf, out) →
  a ∈ applied (calls pf) →
  ∃ a0, snapshots (calls pf) = [a0] ∧
        length (cc a) = length (cc a0) ∧
        ∀ i : nat,
          py_index (length (cc a0)) (VMIN tm) ≠ Some i →
          py_index (length (cc a0)) (VTIME tm) ≠ Some i →
          cc a !! i = cc a0 !! i.
Proof.
  intros Hrun Ha.
  destruct (run_applied _ _ _ _ _ _ Hrun Ha) as (a0 & b & n1 & n2 & Hs & _ & _ & Hn1 & Hn2 & ->).
  exists a0. split; [done|]. cbn [cc raw_profile].
  split; [by rewrite !length_insert|].
  intros i Hi1 Hi2. rewrite Hn1 in Hi1. rewrite Hn2 in Hi2.
  rewrite !list_lookup_insert_ne by congruence. done.
Qed.

(** ** Unsupported rates *)

Lemma unsupported_warning baud :
  build_baudrates tm !! baud = None →
  warning baud = [warning_line baud] ∧ effective_rate baud = 115200.
Proof.
  intros Hn. unfold warning, effective_rate.
  by rewrite bool_decide_eq_true_2.
Qed.

Lemma supported_115200 b :
  speed_attr tm "B115200" = Some b →
  warning 115200 = [] ∧ effective_rate 115200 = 115200.
Proof.
  intros Hb. unfold warning, effective_rate.
  rewrite bool_decide_eq_false_2; [done|].
  rewrite baudrates_lookup, bool_decide_eq_true_2 by done. by rewrite Hb.
Qed.

(** On a host whose [termios] defines B115200, a request for a rate outside
    the allow-list runs exactly as a request for 115200 does (same system
    calls, same host state, same error stream, same exit status), with the
    warning line printed first once the attributes have been read. *)
Lemma unsupported_rate_runs_like_115200 port baud w b pf out pf' out' :
  speed_attr tm "B115200" = Some b →
  build_baudrates tm !! baud = None →
  run port baud w = (pf, out) →
  run port 115200 w = (pf', out') →
  out = out' ∧ world pf = world pf' ∧ calls pf = calls pf' ∧ stderr pf = stderr pf' ∧
  (snapshots (calls pf) ≠ [] → stdout pf = warning_line baud :: stdout pf') ∧
  (∀ a, a ∈ applied (calls pf) → ispeed a = b ∧ ospeed a = b) ∧
  (out' = SystemExit 0 →
   out = SystemExit 0 ∧ stdout pf = warning_line baud :: confirmation port 115200).
Proof.
  intros Hb Hn Hrun Hrun'.
  assert (∀ a, a ∈ applied (calls pf) → ispeed a = b ∧ ospeed a = b) as Hspeed.
  { intros a Ha.
    destruct (run_applied _ _ _ _ _ _ Hrun Ha) as (a0 & b' & n1 & n2 & _ & _ & Hb' & _ & _ & ->).
    rewrite Hb in Hb'. injection Hb' as <-.
    cbn [ispeed ospeed raw_profile]. by rewrite resolved_fallback. }
  revert Hrun Hrun' Hspeed. rewrite !run_unfold. unfold run_tree, failed.
  destruct (unsupported_warning _ Hn) as [-> ->].
  destruct (supported_115200 _ Hb) as [-> ->].
  destruct (os_open _ _ w) as [w1 [e|fd]].
  { intros [= <- <-] [= <- <-] ?. cbn. done. }
  destruct (tcgetattr fd w1) as [w2 [e|a0]].
  { intros [= <- <-] [= <- <-] ?. cbn. done. }
  rewrite Hb.
  destruct (py_index _ (VMIN tm)) as [n1|].
  2:{ intros [= <- <-] [= <- <-] ?. cbn. done. }
  destruct (py_index _ (VTIME tm)) as [n2|].
  2:{ intros [= <- <-] [= <- <-] ?. cbn. done. }
  destruct (tcsetattr _ _ _ w2) as [w3 [e|u]].
  { intros [= <- <-] [= <- <-] ?. cbn. done. }
  destruct (os_close fd w3) as [w4 [e|u']];
    intros [= <- <-] [= <- <-] ?; cbn; done.
Qed.

(** C4, as amended: on a host whose [termios] defines B115200, a request for
    a rate outside the allow-list, on a device whose open, [tcgetattr],
    [tcsetattr] and close succeed, prints the warning line, applies the
    record with B115200 in both speed fields, prints the four confirmation
    lines for 115200 and exits 0. *)
Theorem C4_unsupported_rate_falls_back port baud b w w1 fd w2 a0 n1 n2 w3 w4 :
  speed_attr tm "B115200" = Some b →
  build_baudrates tm !! baud = None →
  os_open port open_flags w = (w1, inr fd) →
  tcgetattr fd w1 = (w2, inr a0) →
  py_index (length (cc a0)) (VMIN tm) = Some n1 →
  py_index (length (cc a0)) (VTIME tm) = Some n2 →
  tcsetattr fd (TCSANOW tm) (raw_profile b n1 n2 a0) w2 = (w3, inr tt) →
  os_close fd w3 = (w4, inr tt) →
  run port baud w =
    (mk_proc w4
       [COpen port open_flags (inr fd); CGetattr fd (inr a0);
        CSetattr fd (TCSANOW tm) (raw_profile b n1 n2 a0) (inr tt); CClose fd (inr tt)]
       (warning_line baud :: confirmation port 115200) [],
     SystemExit 0) ∧
  ispeed (raw_profile b n1 n2 a0) = b ∧ ospeed (raw_profile b n1 n2 a0) = b.
Proof.
  intros Hb Hn Hopen Hget Hn1 Hn2 Hset Hclose.
  rewrite <- (resolved_fallback _ _ Hn Hb) in Hset.
  rewrite (run_applies _ _ _ _ _ _ _ _ _ _ _ Hopen Hget Hb Hn1 Hn2 Hset).
  cbv zeta. rewrite Hclose, (resolved_fallback _ _ Hn Hb).
  destruct (unsupported_warning _ Hn) as [-> ->]. done.
Qed.

(** ** Faults *)

Lemma warning_line_is_no_confirmation baud port rate :
  warning_line baud ∉ confirmation port rate.
Proof.
  unfold warning_line, confirmation. intros Hin.
  repeat (apply elem_of_cons in Hin as [Heq | Hin]; [discriminate Heq|]).
  by apply elem_of_nil in Hin.
Qed.

(** C5: a fault [e] raised in steps 1 to 6 ends the run with exit status 1
    and the one line "Error: " followed by [str e] on the error stream;
    standard output then holds at most the warning line, and none of the
    confirmation lines.  When [os.open] itself raises (a path that does not
    exist), the failed open is the only call and standard output is empty. *)
Theorem C5_fault_reports_and_exits_1 port baud w :
  (∀ p1 e,
     steps_1_6 om tm port baud (start w) = (p1, Raise e) →
     run port baud w =
       (mk_proc (world p1) (calls p1) (stdout p1) ["Error: " +:+ str e], SystemExit 1) ∧
     String.prefix "Error:" ("Error: " +:+ str e) = true ∧
     ∀ line, line ∈ stdout p1 →
             line = warning_line baud ∧ ∀ rate, line ∉ confirmation port rate) ∧
  (∀ w1 e,
     os_open port open_flags w = (w1, inl e) →
     steps_1_6 om tm port baud (start w) =
       (mk_proc w1 [COpen port open_flags (inl e)] [] [], Raise e) ∧
     run port baud w =
       (mk_proc w1 [COpen port open_flags (inl e)] [] ["Error: " +:+ str e], SystemExit 1)).
Proof.
  split.
  - intros p1 e. rewrite steps_unfold, run_unfold.
    unfold steps_tree, run_tree, failed.
    assert (∀ line, line ∈ warning baud →
              line = warning_line baud ∧ ∀ rate, line ∉ confirmation port rate) as Hw.
    { unfold warning. intros line. case_bool_decide.
      - intros ->%list_elem_of_singleton.
        split; [done|]. intros rate. apply warning_line_is_no_confirmation.
      - by intros ?%elem_of_nil. }
    destruct (os_open _ _ w) as [w1 [e1|fd]].
    { intros [= <- <-]. cbn. split_and!; [done..|]. by intros ? ?%elem_of_nil. }
    destruct (tcgetattr fd w1) as [w2 [e1|a0]].
    { intros [= <- <-]. cbn. split_and!; [done..|]. by intros ? ?%elem_of_nil. }
    destruct (speed_attr tm "B115200") as [b|].
    2:{ intros [= <- <-]. cbn. split_and!; done. }
    destruct (py_index _ (VMIN tm)) as [n1|].
    2:{ intros [= <- <-]. cbn. split_and!; done. }
    destruct (py_index _ (VTIME tm)) as [n2|].
    2:{ intros [= <- <-]. cbn. split_and!; done. }
    destruct (tcsetattr _ _ _ w2) as [w3 [e1|u]]; [|done].
    intros [= <- <-]. cbn. split_and!; done.
  - intros w1 e Hopen. rewrite steps_unfold, run_unfold.
    unfold steps_tree, run_tree, failed.
    by rewrite Hopen.
Qed.

(** Every run ends in [sys.exit]: status 0 or status 1, never an exception
    that escapes the procedure. *)
Lemma run_exits port baud w :
  (run port baud w).2 = SystemExit 0 ∨ (run port baud w).2 = SystemExit 1.
Proof.
  rewrite run_unfold. unfold run_tree, failed.
  destruct (os_open _ _ w) as [w1 [e|fd]]; [by right|].
  destruct (tcgetattr fd w1) as [w2 [e|a0]]; [by right|].
  destruct (speed_attr tm "B115200") as [b|]; [|by right].
  destruct (py_index _ (VMIN tm)) as [n1|]; [|by right].
  destruct (py_index _ (VTIME tm)) as [n2|]; [|by right].
  destruct (tcsetattr _ _ _ w2) as [w3 [e|u]]; [by right|].
  destruct (os_close fd w3) as [w4 [e|u']]; [by right|by left].
Qed.

(** ** The overwrite as a transformation of snapshots *)

Lemma raw_profile_lookup baud n1 n2 a0 n :
  (n1 < length (cc a0))%nat → (n2 < length (cc a0))%nat →
  n = n1 ∨ n = n2 →
  cc (raw_profile baud n1 n2 a0) !! n = Some (CcInt 0).
Proof.
  intros H1 H2 Hn. unfold raw_profile. cbn [cc].
  destruct (decide (n = n2)) as [-> | Hne].
  - apply list_lookup_insert_eq. by rewrite length_insert.
  - destruct Hn as [-> | ->]; [|done].
    rewrite list_lookup_insert_ne by done. by apply list_lookup_insert_eq.
Qed.

Lemma raw_profile_idem baud n1 n2 a0 :
  (n1 < length (cc a0))%nat → (n2 < length (cc a0))%nat →
  raw_profile baud n1 n2 (raw_profile baud n1 n2 a0) = raw_profile baud n1 n2 a0.
Proof.
  intros H1 H2. unfold raw_profile at 1.
  rewrite (list_insert_id _ n1), (list_insert_id _ n2)
    by (apply raw_profile_lookup; auto).
  reflexivity.
Qed.

Lemma raw_profile_ext baud n1 n2 a0 a0' :
  (n1 < length (cc a0))%nat → (n2 < length (cc a0))%nat →
  length (cc a0) = length (cc a0') →
  (∀ i : nat, i ≠ n1 → i ≠ n2 → cc a0 !! i = cc a0' !! i) →
  raw_profile baud n1 n2 a0 = raw_profile baud n1 n2 a0'.
Proof.
  intros H1 H2 Hlen Hagree. unfold raw_profile. f_equal.
  apply list_eq. intros i.
  destruct (decide (i = n2)) as [-> | Hne2].
  { rewrite !list_lookup_insert_eq; [done|rewrite length_insert; lia..]. }
  rewrite !(list_lookup_insert_ne _ n2) by done.
  destruct (decide (i = n1)) as [-> | Hne1].
  { rewrite !list_lookup_insert_eq; [done|lia..]. }
  rewrite !list_lookup_insert_ne by done. by apply Hagree.
Qed.

(** C6: running again with the same rate is a fixed point.  When a
    successful second run reads a control-character table that has the
    length of the applied one and its entries away from VMIN and VTIME
    (whatever the device reports for the flag words, the speeds and those
    two slots), it applies exactly the record the first run applied. *)
Theorem C6_reapplying_is_a_fixed_point port baud w w' pf out a pf' a0' :
  run port baud w = (pf, out) →
  a ∈ applied (calls pf) →
  run port baud w' = (pf', SystemExit 0) →
  snapshots (calls pf') = [a0'] →
  length (cc a0') = length (cc a) →
  (∀ i : nat,
     py_index (length (cc a)) (VMIN tm) ≠ Some i →
     py_index (length (cc a)) (VTIME tm) ≠ Some i →
     cc a0' !! i = cc a !! i) →
  applied (calls pf') = [a].
Proof.
  intros Hrun Ha Hrun' Hsnap Hlen Hagree.
  destruct (run_applied _ _ _ _ _ _ Hrun Ha)
    as (a0 & b & n1 & n2 & _ & _ & Hb & Hn1 & Hn2 & ->).
  apply run_success in Hrun'
    as (w1' & fd' & w2' & a1 & b' & n1' & n2' & w3' & w4' & _ & _ & Hb' & Hn1' & Hn2' & _ & _ & ->).
  cbn in Hsnap. injection Hsnap as ->. cbn.
  rewrite Hb in Hb'. injection Hb' as <-.
  unfold raw_profile in Hlen, Hagree. cbn [cc] in Hlen, Hagree.
  rewrite !length_insert in Hlen, Hagree.
  rewrite Hlen, Hn1 in Hn1'. rewrite Hlen, Hn2 in Hn2'.
  injection Hn1' as <-. injection Hn2' as <-.
  f_equal. symmetry. apply raw_profile_ext; [by eapply py_index_lt..|done|].
  intros i Hi1 Hi2. rewrite Hagree by congruence.
  rewrite !list_lookup_insert_ne by done. reflexivity.
Qed.

(** C7, as amended: for two snapshots and one requested rate, the applied
    records agree in the four flag groups, in both speeds and in the VMIN
    and VTIME entries; the rest of the control-character list comes from
    the snapshot, so the two records are equal when the snapshots'
    lists have one length and agree away from VMIN and VTIME. *)
Theorem C7_profile_up_to_control_characters port port' baud w w' pf pf' out out' a a' :
  run port baud w = (pf, out) →
  run port' baud w' = (pf', out') →
  a ∈ applied (calls pf) →
  a' ∈ applied (calls pf') →
  iflag a = iflag a' ∧ oflag a = oflag a' ∧ cflag a = cflag a' ∧ lflag a = lflag a' ∧
  ispeed a = ispeed a' ∧ ospeed a = ospeed a' ∧
  py_getitem (cc a) (VMIN tm) = py_getitem (cc a') (VMIN tm) ∧
  py_getitem (cc a) (VTIME tm) = py_getitem (cc a') (VTIME tm) ∧
  ∀ a0 a0',
    snapshots (calls pf) = [a0] → snapshots (calls pf') = [a0'] →
    length (cc a0) = length (cc a0') →
    (∀ i : nat,
       py_index (length (cc a0)) (VMIN tm) ≠ Some i →
       py_index (length (cc a0)) (VTIME tm) ≠ Some i →
       cc a0 !! i = cc a0' !! i) →
    a = a'.
Proof.
  intros Hrun Hrun' Ha Ha'.
  destruct (run_applied _ _ _ _ _ _ Hrun Ha)
    as (a0 & b & n1 & n2 & Hs & _ & Hb & Hn1 & Hn2 & ->).
  destruct (run_applied _ _ _ _ _ _ Hrun' Ha')
    as (a0' & b' & n1' & n2' & Hs' & _ & Hb' & Hn1' & Hn2' & ->).
  rewrite Hb in Hb'. injection Hb' as <-.
  do 6 (split; [reflexivity|]).
  split; [|split].
  - rewrite (raw_profile_getitem _ n1 n2 a0 (VMIN tm) n1 Hn1 Hn2 Hn1) by auto.
    rewrite (raw_profile_getitem _ n1' n2' a0' (VMIN tm) n1' Hn1' Hn2' Hn1') by auto.
    done.
  - rewrite (raw_profile_getitem _ n1 n2 a0 (VTIME tm) n2 Hn1 Hn2 Hn2) by auto.
    rewrite (raw_profile_getitem _ n1' n2' a0' (VTIME tm) n2' Hn1' Hn2' Hn2') by auto.
    done.
  - intros ? ? Hs1 Hs1' Hlen Hagree.
    rewrite Hs in Hs1. rewrite Hs' in Hs1'.
    injection Hs1 as <-. injection Hs1' as <-.
    rewrite <- Hlen in Hn1', Hn2'.
    rewrite Hn1 in Hn1'. rewrite Hn2 in Hn2'.
    injection Hn1' as <-. injection Hn2' as <-.
    apply raw_profile_ext; [by eapply py_index_lt..|done|].
    intros i Hi1 Hi2. apply Hagree; congruence.
Qed.

(** ** The descriptor *)

(** X13: a run that exits 0 has closed the descriptor it opened. *)
Lemma success_releases port baud w pf :
  run port baud w = (pf, SystemExit 0) → unreleased (calls pf) [] = [].
Proof.
  intros Hrun. apply run_success in Hrun
    as (w1 & fd & w2 & a0 & b & n1 & n2 & w3 & w4 & _ & _ & _ & _ & _ & _ & _ & ->).
  cbn. rewrite decide_False by tauto. done.
Qed.

(** X14: a fault in steps 2 to 6 ends the run with the descriptor still open:
    the handler makes no [os.close] call. *)
Lemma fault_after_open_leaks port baud w p1 e fd w1 :
  os_open port open_flags w = (w1, inr fd) →
  steps_1_6 om tm port baud (start w) = (p1, Raise e) →
  ∃ pf, run port baud w = (pf, SystemExit 1) ∧ unreleased (calls pf) [] = [fd].
Proof.
  intros Hopen. rewrite steps_unfold, run_unfold.
  unfold steps_tree, run_tree, failed. rewrite Hopen.
  destruct (tcgetattr fd w1) as [w2 [e1|a0]].
  { intros [= <- <-]. eexists. split; reflexivity. }
  destruct (speed_attr tm "B115200") as [b|].
  2:{ intros [= <- <-]. eexists. split; reflexivity. }
  destruct (py_index _ (VMIN tm)) as [n1|].
  2:{ intros [= <- <-]. eexists. split; reflexivity. }
  destruct (py_index _ (VTIME tm)) as [n2|].
  2:{ intros [= <- <-]. eexists. split; reflexivity. }
  destruct (tcsetattr _ _ _ w2) as [w3 [e1|u]]; [|done].
  intros [= <- <-]. eexists. split; reflexivity.
Qed.

(** ** The entry point *)

(** C10: when [sys.argv] has a second argument on which [int] raises, the
    exception leaves the [__main__] block itself: the process state is as
    it was (nothing on either stream, no system call), and the handler of
    [configure_serial_raw], which is never entered, prints no "Error:"
    line. *)
Theorem C10_unparsable_rate_escapes (py_int : string → exn + Z) argv s e (p : Proc W) :
  argv !! 2%nat = Some s →
  py_int s = inl e →
  main om tm py_int argv p = (p, Raise e).
Proof.
  intros Hs He. unfold main.
  rewrite (bool_decide_eq_true_2 (2 < length argv)%nat)
    by (by eapply lookup_lt_Some).
  rewrite Hs. cbn [from_option id]. rewrite He. reflexivity.
Qed.

(** * Further properties of the script *)

(** ** The dictionary of supported rates *)

(** X1: [baudrates] maps a rate to a constant exactly when the rate is one
    of the four candidates and the host's [termios] has the attribute
    B<rate>, and then to that attribute's value. *)
Theorem baudrates_holds_supported_candidates (r c : Z) :
  build_baudrates tm !! r = Some c ↔
  r ∈ [115200; 230400; 460800; 921600] ∧ speed_attr tm ("B" +:+ pretty r) = Some c.
Proof.
  rewrite baudrates_lookup. split.
  - repeat case_bool_decide; subst; intros Hc; try done;
      (split; [set_solver | exact Hc]).
  - intros [Hin Hc].
    repeat (apply elem_of_cons in Hin as [-> | Hin]; [exact Hc|]).
    by apply elem_of_nil in Hin.
Qed.

(** ** Exit status and streams *)

(** X2: every run ends in [sys.exit]: either with status 0, an empty error
    stream and four system calls that all succeeded, or with status 1 and
    exactly one line on the error stream, "Error: " followed by the text
    of an exception. *)
Theorem run_ends_with_status_and_report port baud w :
  ((run port baud w).2 = SystemExit 0 ∧
   stderr (run port baud w).1 = [] ∧
   length (calls (run port baud w).1) = 4%nat ∧
   forallb call_ok (calls (run port baud w).1) = true) ∨
  ((run port baud w).2 = SystemExit 1 ∧
   ∃ e, stderr (run port baud w).1 = ["Error: " +:+ str e]).
Proof.
  rewrite run_unfold. unfold run_tree, failed.
  destruct (os_open _ _ w) as [w1 [e|fd]]; [right; eauto|].
  destruct (tcgetattr fd w1) as [w2 [e|a0]]; [right; eauto|].
  destruct (speed_attr tm "B115200") as [b|]; [|right; eauto].
  destruct (py_index _ (VMIN tm)) as [n1|]; [|right; eauto].
  destruct (py_index _ (VTIME tm)) as [n2|]; [|right; eauto].
  destruct (tcsetattr _ _ _ w2) as [w3 [e|u]]; [right; eauto|].
  destruct (os_close fd w3) as [w4 [e|u']]; [right; eauto|].
  left. done.
Qed.

(** X3: a run that exits 0 made exactly the calls open, tcgetattr,
    tcsetattr (with TCSANOW) and close, in that order and all on the
    descriptor that open returned, and printed the warning (for a rate
    outside the dictionary) followed by the four confirmation lines for the
    effective rate. *)
Theorem success_transcript port baud w pf :
  run port baud w = (pf, SystemExit 0) →
  ∃ fd a0 a,
    calls pf = [COpen port open_flags (inr fd); CGetattr fd (inr a0);
                CSetattr fd (TCSANOW tm) a (inr tt); CClose fd (inr tt)] ∧
    stdout pf =
      (if bool_decide (build_baudrates tm !! baud = None)
       then [warning_line baud] else []) ++
      [ "[configure-serial] Configured " +:+ port +:+ " for raw binary mode";
        "[configure-serial] Baud rate: " +:+
          pretty (if bool_decide (build_baudrates tm !! baud = None) then 115200 else baud);
        "[configure-serial] iflag=0, oflag=0, lflag=0 (all processing disabled)";
        "[configure-serial] VMIN=0, VTIME=0 (non-blocking)" ] ∧
    stderr pf = [].
Proof.
  intros Hrun. apply run_success in Hrun
    as (w1 & fd & w2 & a0 & b & n1 & n2 & w3 & w4 & _ & _ & _ & _ & _ & _ & _ & ->).
  eexists fd, a0, _. done.
Qed.

(** X4: the warning line is on standard output exactly when the requested
    rate is not in the dictionary and the run got as far as reading the
    attributes. *)
Theorem warning_printed_iff port baud w :
  warning_line baud ∈ stdout (run port baud w).1 ↔
  build_baudrates tm !! baud = None ∧ snapshots (calls (run port baud w).1) ≠ [].
Proof.
  assert (warning_line baud ∈ warning baud ↔ build_baudrates tm !! baud = None) as Hw0.
  { unfold warning. case_bool_decide as Hd.
    - rewrite list_elem_of_singleton. tauto.
    - split; [intros []%elem_of_nil | done]. }
  pose proof (warning_line_is_no_confirmation baud port (effective_rate baud)) as Hno.
  assert (∀ a0 : Attrs, [a0] ≠ []) as Hne by done.
  rewrite run_unfold. unfold run_tree, failed.
  destruct (os_open _ _ w) as [w1 [e|fd]].
  { cbn. split; [intros []%elem_of_nil | intros [_ []]; reflexivity]. }
  destruct (tcgetattr fd w1) as [w2 [e|a0]].
  { cbn. split; [intros []%elem_of_nil | intros [_ []]; reflexivity]. }
  specialize (Hne a0).
  destruct (speed_attr tm "B115200") as [b|].
  2:{ cbn. rewrite Hw0. tauto. }
  destruct (py_index _ (VMIN tm)) as [n1|].
  2:{ cbn. rewrite Hw0. tauto. }
  destruct (py_index _ (VTIME tm)) as [n2|].
  2:{ cbn. rewrite Hw0. tauto. }
  destruct (tcsetattr _ _ _ w2) as [w3 [e|u]].
  { cbn. rewrite Hw0. tauto. }
  destruct (os_close fd w3) as [w4 [e|u']];
    cbn [fst stdout calls]; rewrite elem_of_app, Hw0; cbn; tauto.
Qed.

(** ** The rate that is applied and the rate that is reported *)

(** X5: whenever a record is applied, the rate the script goes on with (the
    requested one if the dictionary has it, else 115200) is one of the four
    candidates, both speed fields of the record hold the constant the
    host's [termios] has for that rate, and a run that exits 0 reports that
    same rate in its "Baud rate:" line. *)
Theorem reported_rate_is_the_applied_rate port baud w pf out a :
  run port baud w = (pf, out) →
  a ∈ applied (calls pf) →
  effective_rate baud ∈ [115200; 230400; 460800; 921600] ∧
  speed_attr tm ("B" +:+ pretty (effective_rate baud)) = Some (ispeed a) ∧
  ospeed a = ispeed a ∧
  (out = SystemExit 0 →
   "[configure-serial] Baud rate: " +:+ pretty (effective_rate baud) ∈ stdout pf).
Proof.
  intros Hrun Ha.
  destruct (run_applied _ _ _ _ _ _ Hrun Ha)
    as (a0 & b & n1 & n2 & _ & _ & Hb & _ & _ & ->).
  cbn [ispeed ospeed raw_profile].
  assert (effective_rate baud ∈ [115200; 230400; 460800; 921600] ∧
          speed_attr tm ("B" +:+ pretty (effective_rate baud)) =
            Some (default b (build_baudrates tm !! effective_rate baud))) as [Hin Hsp].
  { destruct (build_baudrates tm !! baud) as [c|] eqn:Hlook.
    - rewrite (resolved_supported _ _ _ Hlook).
      unfold effective_rate. rewrite bool_decide_eq_false_2 by congruence.
      by apply baudrates_holds_supported_candidates.
    - rewrite (resolved_fallback _ _ Hlook Hb).
      unfold effective_rate. rewrite bool_decide_eq_true_2 by done.
      split; [set_solver | exact Hb]. }
  split; [exact Hin|]. split; [exact Hsp|]. split; [reflexivity|].
  intros ->. apply run_success in Hrun
    as (w1 & fd & w2 & a1 & b' & n1' & n2' & w3 & w4 & _ & _ & _ & _ & _ & _ & _ & ->).
  cbn [stdout]. unfold confirmation. apply elem_of_app. right.
  apply list_elem_of_further, list_elem_of_here.
Qed.

(** X6: on a host whose [termios] has no B115200, no request succeeds, not
    even one for another rate the host supports: the run exits 1 and no
    record is applied; once the attributes were read, the error line names
    the missing attribute. *)
Theorem missing_B115200_fails_every_request port baud w :
  speed_attr tm "B115200" = None →
  (run port baud w).2 = SystemExit 1 ∧
  applied (calls (run port baud w).1) = [] ∧
  (snapshots (calls (run port baud w).1) ≠ [] →
   stderr (run port baud w).1 =
     ["Error: module 'termios' has no attribute 'B115200'"]).
Proof.
  intros Hb. rewrite run_unfold. unfold run_tree, failed. rewrite Hb.
  destruct (os_open _ _ w) as [w1 [e|fd]]; [done|].
  destruct (tcgetattr fd w1) as [w2 [e|a0]]; done.
Qed.

(** ** Faults outside the claims' paths *)

(** X8: when steps 1 to 6 went through and [os.close] raises, the run still
    exits 1 with the "Error:" line, although the record has been applied
    and all four confirmation lines are already on standard output. *)
Theorem close_fault_after_confirmation port baud w p1 fd rate w' e :
  steps_1_6 om tm port baud (start w) = (p1, Ret (fd, rate)) →
  os_close fd (world p1) = (w', inl e) →
  run port baud w =
    (mk_proc w' (calls p1 ++ [CClose fd (inl e)])
       (stdout p1 ++ confirmation port rate) ["Error: " +:+ str e],
     SystemExit 1) ∧
  ∃ a, applied (calls p1) = [a].
Proof.
  rewrite steps_unfold, run_unfold. unfold steps_tree, run_tree, failed.
  destruct (os_open _ _ w) as [w1 [e1|fd1]]; [done|].
  destruct (tcgetattr fd1 w1) as [w2 [e1|a0]]; [done|].
  destruct (speed_attr tm "B115200") as [b|]; [|done].
  destruct (py_index _ (VMIN tm)) as [n1|]; [|done].
  destruct (py_index _ (VTIME tm)) as [n2|]; [|done].
  destruct (tcsetattr _ _ _ w2) as [w3 [e1|u]]; [done|].
  intros [= <- <- <-]. cbn [world calls stdout]. intros ->.
  split; [reflexivity|]. eexists. reflexivity.
Qed.

(** ** Descriptors *)

(** X9: the system calls of a run are a prefix of the script's sequence,
    in its order and on one descriptor: a failed [os.open] alone; or the
    open followed by [tcgetattr] on the descriptor it returned; or, after a
    successful [tcgetattr], a failed [tcsetattr] with TCSANOW on that
    descriptor; or, after a successful [tcsetattr], [os.close] of that
    descriptor.  No call is made twice and none on another descriptor. *)
Theorem calls_follow_the_script port baud w :
  (∃ e, calls (run port baud w).1 = [COpen port open_flags (inl e)]) ∨
  (∃ fd r, calls (run port baud w).1 =
             [COpen port open_flags (inr fd); CGetattr fd r]) ∨
  (∃ fd a0 a e, calls (run port baud w).1 =
                  [COpen port open_flags (inr fd); CGetattr fd (inr a0);
                   CSetattr fd (TCSANOW tm) a (inl e)]) ∨
  (∃ fd a0 a r, calls (run port baud w).1 =
                  [COpen port open_flags (inr fd); CGetattr fd (inr a0);
                   CSetattr fd (TCSANOW tm) a (inr tt); CClose fd r]).
Proof.
  rewrite run_unfold. unfold run_tree, failed.
  destruct (os_open _ _ w) as [w1 [e|fd]]; [left; by eexists|].
  destruct (tcgetattr fd w1) as [w2 [e|a0]]; [right; left; by eexists _, _|].
  destruct (speed_attr tm "B115200") as [b|]; [|right; left; by eexists _, _].
  destruct (py_index _ (VMIN tm)) as [n1|]; [|right; left; by eexists _, _].
  destruct (py_index _ (VTIME tm)) as [n2|]; [|right; left; by eexists _, _].
  destruct (tcsetattr _ _ _ w2) as [w3 [e|[]]];
    [right; right; left; by eexists _, _, _, _|].
  destruct (os_close fd w3) as [w4 [e|u]];
    right; right; right; by eexists _, _, _, _.
Qed.

(** ** The entry point, beyond the conversion fault *)

(** X10: an invocation without arguments that exits 0 has configured
    /dev/ttyS0 at 115200: it printed the four confirmation lines for that
    port and rate and no warning, and the one record it applied carries the
    host's B115200 in both speed fields.  [int] is not consulted. *)
Theorem default_invocation_transcript (py_int : string → exn + Z) argv w pf :
  (length argv ≤ 1)%nat →
  main om tm py_int argv (start w) = (pf, SystemExit 0) →
  stdout pf =
    [ "[configure-serial] Configured /dev/ttyS0 for raw binary mode";
      "[configure-serial] Baud rate: 115200";
      "[configure-serial] iflag=0, oflag=0, lflag=0 (all processing disabled)";
      "[configure-serial] VMIN=0, VTIME=0 (non-blocking)" ] ∧
  ∃ fd a0 a,
    calls pf = [COpen "/dev/ttyS0" open_flags (inr fd); CGetattr fd (inr a0);
                CSetattr fd (TCSANOW tm) a (inr tt); CClose fd (inr tt)] ∧
    speed_attr tm "B115200" = Some (ispeed a) ∧ ospeed a = ispeed a.
Proof.
  intros Hlen Hmain.
  assert (main om tm py_int argv (start w) = run "/dev/ttyS0" 115200 w) as Hm.
  { unfold main. rewrite !bool_decide_eq_false_2 by lia. reflexivity. }
  rewrite Hm in Hmain. apply run_success in Hmain
    as (w1 & fd & w2 & a0 & b & n1 & n2 & w3 & w4 & _ & _ & Hb & _ & _ & _ & _ & ->).
  destruct (supported_115200 _ Hb) as [Hw He].
  cbn [stdout calls]. rewrite Hw, He. split; [reflexivity|].
  eexists fd, a0, _. split; [reflexivity|]. cbn [ispeed ospeed raw_profile].
  rewrite baudrates_lookup, bool_decide_eq_true_2 by done. rewrite Hb. done.
Qed.

End Run.

(** * Instances on the simulated host *)

Example linux_cflag_bits : cflag_bits_distinct linux_termios.
Proof. repeat split; reflexivity. Qed.

Example darwin_cflag_bits : cflag_bits_distinct darwin_termios.
Proof. repeat split; reflexivity. Qed.

Example py_index_from_the_end : py_index 32 (-1) = Some 31%nat.
Proof. reflexivity. Qed.

Example py_index_out_of_range : py_index 20 20 = None ∧ py_index 20 (-21) = None.
Proof. split; reflexivity. Qed.

Example int_ascii_grouped : int_ascii " 115_200 " = inr 115200.
Proof. vm_compute. reflexivity. Qed.

Example int_ascii_hex : int_ascii "0x1C200" =
  inl (mk_exn ValueError "invalid literal for int() with base 10: '0x1C200'").
Proof. vm_compute. reflexivity. Qed.

Example linux_raw_run_output :
  linux_raw_run.2 = SystemExit 0 ∧
  stdout linux_raw_run.1 =
    ["[configure-serial] Configured /dev/ttyS0 for raw binary mode";
     "[configure-serial] Baud rate: 115200";
     "[configure-serial] iflag=0, oflag=0, lflag=0 (all processing disabled)";
     "[configure-serial] VMIN=0, VTIME=0 (non-blocking)"] ∧
  stderr linux_raw_run.1 = [].
Proof. repeat split; vm_compute; reflexivity. Qed.

Example darwin_exotic_run_output :
  darwin_exotic_run.2 = SystemExit 0 ∧
  stdout darwin_exotic_run.1 =
    ["Warning: Baudrate 460800 not available, using 115200";
     "[configure-serial] Configured /dev/cu.usbserial for raw binary mode";
     "[configure-serial] Baud rate: 115200";
     "[configure-serial] iflag=0, oflag=0, lflag=0 (all processing disabled)";
     "[configure-serial] VMIN=0, VTIME=0 (non-blocking)"].
Proof. split; vm_compute; reflexivity. Qed.

(** The line is left in the same state by the second invocation as by the
    first. *)
Example linux_second_run_device :
  nodes (world linux_second_run.1) !! "/dev/ttyS0" =
  nodes (world linux_raw_run.1) !! "/dev/ttyS0".
Proof. vm_compute. reflexivity. Qed.

Lemma C1_witness_linux :
  linux_raw_run = (linux_raw_run.1, SystemExit 0) ∧
  ∃ a, applied (calls linux_raw_run.1) = [a] ∧
       iflag a = 0 ∧ oflag a = 0 ∧ lflag a = 0 ∧ cflag a = 2224 ∧
       Z.land (cflag a) 256 = 0 ∧ Z.land (cflag a) 64 = 0.
Proof.
  assert (linux_raw_run = (linux_raw_run.1, SystemExit 0)) as Hrun
    by (vm_compute; reflexivity).
  split; [exact Hrun|].
  destruct (C1_raw_flag_profile (OS0:=SimHost.sim_os linux_termios) linux_os linux_termios "/dev/ttyS0" 115200 sim_linux _ Hrun)
    as (a & Ha & Hi & Ho & Hl & Hc & Hbits).
  exists a. repeat (split; [assumption|]).
  apply Hbits. vm_compute. repeat split; reflexivity.
Defined.

Lemma C2_witness_linux :
  linux_fast_run = (linux_fast_run.1, SystemExit 0) ∧
  ∃ a, applied (calls linux_fast_run.1) = [a] ∧
       py_getitem (cc a) 6 = Some (CcInt 0) ∧ py_getitem (cc a) 5 = Some (CcInt 0).
Proof.
  split; [vm_compute; reflexivity|].
  apply (C2_vmin_vtime_zero (OS0:=SimHost.sim_os linux_termios) linux_os linux_termios "/dev/ttyS0" 921600 sim_linux).
  vm_compute; reflexivity.
Defined.



Lemma C4_witness_darwin :
  speed_attr darwin_termios "B115200" = Some 115200 ∧
  build_baudrates darwin_termios !! 460800 = None ∧
  SimHost.sim_tcgetattr darwin_termios 3 sim_darwin_opened =
    (sim_darwin_opened, inr darwin_snapshot) ∧
  darwin_exotic_run =
    (mk_proc (world darwin_exotic_run.1)
       [COpen "/dev/cu.usbserial" 131078 (inr 3); CGetattr 3 (inr darwin_snapshot);
        CSetattr 3 0 (raw_profile darwin_termios 115200 16 17 darwin_snapshot) (inr tt);
        CClose 3 (inr tt)]
       ["Warning: Baudrate 460800 not available, using 115200";
        "[configure-serial] Configured /dev/cu.usbserial for raw binary mode";
        "[configure-serial] Baud rate: 115200";
        "[configure-serial] iflag=0, oflag=0, lflag=0 (all processing disabled)";
        "[configure-serial] VMIN=0, VTIME=0 (non-blocking)"] [],
     SystemExit 0) ∧
  ispeed (raw_profile darwin_termios 115200 16 17 darwin_snapshot) = 115200 ∧
  ospeed (raw_profile darwin_termios 115200 16 17 darwin_snapshot) = 115200.
Proof.
  assert (speed_attr darwin_termios "B115200" = Some 115200) as Hb by reflexivity.
  assert (build_baudrates darwin_termios !! 460800 = None) as Hn
    by (vm_compute; reflexivity).
  assert (SimHost.sim_open "/dev/cu.usbserial" 131078 sim_darwin =
            (sim_darwin_opened, inr 3)) as Hopen
    by (vm_compute; reflexivity).
  assert (SimHost.sim_tcgetattr darwin_termios 3 sim_darwin_opened =
            (sim_darwin_opened, inr darwin_snapshot)) as Hget
    by (vm_compute; reflexivity).
  assert (py_index (length (cc darwin_snapshot)) 16 = Some 16%nat) as Hn1 by reflexivity.
  assert (py_index (length (cc darwin_snapshot)) 17 = Some 17%nat) as Hn2 by reflexivity.
  assert (SimHost.sim_tcsetattr 3 0 (raw_profile darwin_termios 115200 16 17 darwin_snapshot)
            sim_darwin_opened =
          (world (steps_1_6 (OS0:=SimHost.sim_os darwin_termios) darwin_os darwin_termios
                    "/dev/cu.usbserial" 460800 (start sim_darwin)).1, inr tt)) as Hset
    by (vm_compute; reflexivity).
  assert (SimHost.sim_close 3
            (world (steps_1_6 (OS0:=SimHost.sim_os darwin_termios) darwin_os darwin_termios
                      "/dev/cu.usbserial" 460800 (start sim_darwin)).1) =
          (world darwin_exotic_run.1, inr tt)) as Hclose
    by (vm_compute; reflexivity).
  repeat (split; [assumption|]).
  exact (C4_unsupported_rate_falls_back (OS0:=SimHost.sim_os darwin_termios)
           darwin_os darwin_termios "/dev/cu.usbserial" 460800 115200 sim_darwin
           sim_darwin_opened 3 sim_darwin_opened darwin_snapshot 16 17 _ _
           Hb Hn Hopen Hget Hn1 Hn2 Hset Hclose).
Defined.

(** The claim C4 as stated fails on a host whose [termios] has no B115200:
    9600 is outside the allow-list, every system call made succeeds, the
    warning is printed, and the run ends with exit status 1 on the missing
    attribute, with no record applied. *)
Lemma C4_counterexample_host_without_B115200 :
  build_baudrates no_b115200_termios !! 9600 = None ∧
  forallb call_ok (calls no_b115200_run.1) = true ∧
  stdout no_b115200_run.1 = ["Warning: Baudrate 9600 not available, using 115200"] ∧
  stderr no_b115200_run.1 = ["Error: module 'termios' has no attribute 'B115200'"] ∧
  applied (calls no_b115200_run.1) = [] ∧
  no_b115200_run.2 = SystemExit 1.
Proof.
  repeat split; vm_compute; reflexivity.
Qed.

Lemma C5_witness_faults :
  (dev_null_run =
     (mk_proc (world dev_null_run.1)
        [COpen "/dev/null" 2306 (inr 3);
         CGetattr 3 (inl (mk_exn TermiosError "(25, 'Inappropriate ioctl for device')"))]
        [] ["Error: (25, 'Inappropriate ioctl for device')"],
      SystemExit 1)) ∧
  (sim_run linux_os linux_termios "/dev/ttyUSB9" 115200 sim_linux =
     (mk_proc sim_linux
        [COpen "/dev/ttyUSB9" 2306
           (inl (mk_exn OSError "[Errno 2] No such file or directory: '/dev/ttyUSB9'"))]
        [] ["Error: [Errno 2] No such file or directory: '/dev/ttyUSB9'"],
      SystemExit 1)).
Proof.
  destruct (C5_fault_reports_and_exits_1 (OS0:=SimHost.sim_os linux_termios)
              linux_os linux_termios "/dev/null" 115200 sim_linux) as [Hfault _].
  destruct (C5_fault_reports_and_exits_1 (OS0:=SimHost.sim_os linux_termios)
              linux_os linux_termios "/dev/ttyUSB9" 115200 sim_linux) as [_ Hopen].
  split.
  - refine (proj1 (Hfault
      (mk_proc (world dev_null_run.1)
         [COpen "/dev/null" 2306 (inr 3);
          CGetattr 3 (inl (mk_exn TermiosError "(25, 'Inappropriate ioctl for device')"))]
         [] [])
      (mk_exn TermiosError "(25, 'Inappropriate ioctl for device')") _)).
    vm_compute; reflexivity.
  - refine (proj2 (Hopen sim_linux
      (mk_exn OSError "[Errno 2] No such file or directory: '/dev/ttyUSB9'") _)).
    vm_compute; reflexivity.
Defined.

Lemma C6_witness_second_run :
  linux_raw_run = (linux_raw_run.1, linux_raw_run.2) ∧
  linux_raw_record ∈ applied (calls linux_raw_run.1) ∧
  linux_second_run = (linux_second_run.1, SystemExit 0) ∧
  snapshots (calls linux_second_run.1) = [linux_second_snapshot] ∧
  cflag linux_second_snapshot = 6322 ∧ cflag linux_raw_record = 2224 ∧
  applied (calls linux_second_run.1) = [linux_raw_record].
Proof.
  assert (linux_raw_run = (linux_raw_run.1, linux_raw_run.2)) as H1
    by (vm_compute; reflexivity).
  assert (linux_raw_record ∈ applied (calls linux_raw_run.1)) as H2
    by (vm_compute; apply list_elem_of_here).
  assert (linux_second_run = (linux_second_run.1, SystemExit 0)) as H3
    by (vm_compute; reflexivity).
  assert (snapshots (calls linux_second_run.1) = [linux_second_snapshot]) as H4
    by (vm_compute; reflexivity).
  repeat (split; [assumption|]).
  split; [reflexivity|]. split; [reflexivity|].
  refine (C6_reapplying_is_a_fixed_point (OS0:=SimHost.sim_os linux_termios)
            linux_os linux_termios "/dev/ttyS0" 115200 sim_linux (world linux_raw_run.1)
            _ _ linux_raw_record _ linux_second_snapshot H1 H2 H3 H4 _ _).
  - reflexivity.
  - intros i _ _. reflexivity.
Defined.

Lemma C7_witness_two_lines :
  linux_raw_run = (linux_raw_run.1, linux_raw_run.2) ∧
  linux_raw_run' = (linux_raw_run'.1, linux_raw_run'.2) ∧
  linux_raw_record ∈ applied (calls linux_raw_run.1) ∧
  linux_raw_record' ∈ applied (calls linux_raw_run'.1) ∧
  iflag linux_raw_record = iflag linux_raw_record' ∧
  oflag linux_raw_record = oflag linux_raw_record' ∧
  cflag linux_raw_record = cflag linux_raw_record' ∧
  lflag linux_raw_record = lflag linux_raw_record' ∧
  ispeed linux_raw_record = ispeed linux_raw_record' ∧
  ospeed linux_raw_record = ospeed linux_raw_record' ∧
  py_getitem (cc linux_raw_record) 6 = py_getitem (cc linux_raw_record') 6 ∧
  py_getitem (cc linux_raw_record) 5 = py_getitem (cc linux_raw_record') 5.
Proof.
  assert (linux_raw_run = (linux_raw_run.1, linux_raw_run.2)) as H1
    by (vm_compute; reflexivity).
  assert (linux_raw_run' = (linux_raw_run'.1, linux_raw_run'.2)) as H2
    by (vm_compute; reflexivity).
  assert (linux_raw_record ∈ applied (calls linux_raw_run.1)) as H3
    by (vm_compute; apply list_elem_of_here).
  assert (linux_raw_record' ∈ applied (calls linux_raw_run'.1)) as H4
    by (vm_compute; apply list_elem_of_here).
  repeat (split; [assumption|]).
  destruct (C7_profile_up_to_control_characters (OS0:=SimHost.sim_os linux_termios)
              linux_os linux_termios "/dev/ttyS0" "/dev/ttyS0" 115200 sim_linux sim_linux'
              _ _ _ _ _ _ H1 H2 H3 H4)
    as (Hi & Ho & Hc & Hl & His & Hos & Hmin & Htime & _).
  repeat (split; [assumption|]). exact Htime.
Defined.

(** The claim C7 as stated fails: the same request on two lines that
    differ only in the interrupt character (index 0 of the table) succeeds
    on both and applies two different records. *)
Lemma C7_counterexample_interrupt_character :
  linux_raw_run.2 = SystemExit 0 ∧ linux_raw_run'.2 = SystemExit 0 ∧
  applied (calls linux_raw_run.1) = [linux_raw_record] ∧
  applied (calls linux_raw_run'.1) = [linux_raw_record'] ∧
  cc linux_raw_record !! 0%nat = Some (CcBytes 3) ∧
  cc linux_raw_record' !! 0%nat = Some (CcBytes 7) ∧
  applied (calls linux_raw_run.1) ≠ applied (calls linux_raw_run'.1).
Proof.
  repeat split; try (vm_compute; reflexivity).
  vm_compute. intros [=].
Qed.

(** C8 fails after a successful open: [/dev/null] opens (descriptor 3) but
    is no terminal, [tcgetattr] raises, the handler prints and exits 1, and
    no [os.close] call was made; the descriptor is still in the host's
    table when the procedure ends. *)
Theorem C8_fault_after_open_leaves_descriptor_open :
  dev_null_run.2 = SystemExit 1 ∧
  calls dev_null_run.1 =
    [COpen "/dev/null" 2306 (inr 3);
     CGetattr 3 (inl (mk_exn TermiosError "(25, 'Inappropriate ioctl for device')"))] ∧
  stderr dev_null_run.1 = ["Error: (25, 'Inappropriate ioctl for device')"] ∧
  unreleased (calls dev_null_run.1) [] = [3] ∧
  fdtab (world dev_null_run.1) !! 3 = Some "/dev/null" ∧
  fdtab (world linux_raw_run.1) !! 3 = None.
Proof.
  repeat split; vm_compute; reflexivity.
Qed.

Lemma C9_witness_linux :
  linux_raw_run = (linux_raw_run.1, linux_raw_run.2) ∧
  linux_raw_record ∈ applied (calls linux_raw_run.1) ∧
  ∃ a0, snapshots (calls linux_raw_run.1) = [a0] ∧
        length (cc linux_raw_record) = length (cc a0) ∧
        ∀ i : nat,
          py_index (length (cc a0)) 6 ≠ Some i →
          py_index (length (cc a0)) 5 ≠ Some i →
          cc linux_raw_record !! i = cc a0 !! i.
Proof.
  assert (linux_raw_run = (linux_raw_run.1, linux_raw_run.2)) as H1
    by (vm_compute; reflexivity).
  assert (linux_raw_record ∈ applied (calls linux_raw_run.1)) as H2
    by (vm_compute; apply list_elem_of_here).
  repeat (split; [assumption|]).
  exact (C9_other_control_characters_kept (OS0:=SimHost.sim_os linux_termios)
           linux_os linux_termios "/dev/ttyS0" 115200 sim_linux _ _ _ H1 H2).
Defined.

Lemma C10_witness_fast :
  argv_fast !! 2%nat = Some "fast" ∧
  int_ascii "fast" =
    inl (mk_exn ValueError "invalid literal for int() with base 10: 'fast'") ∧
  main (OS0:=SimHost.sim_os linux_termios) linux_os linux_termios int_ascii argv_fast
       (start sim_linux) =
    (start sim_linux,
     Raise (mk_exn ValueError "invalid literal for int() with base 10: 'fast'")).
Proof.
  assert (argv_fast !! 2%nat = Some "fast") as H1 by reflexivity.
  assert (int_ascii "fast" =
            inl (mk_exn ValueError "invalid literal for int() with base 10: 'fast'")) as H2
    by (vm_compute; reflexivity).
  repeat (split; [assumption|]).
  exact (C10_unparsable_rate_escapes (OS0:=SimHost.sim_os linux_termios)
           linux_os linux_termios int_ascii argv_fast "fast" _ (start sim_linux) H1 H2).
Defined.

(** * Instances for the further properties *)

Lemma success_transcript_witness :
  darwin_exotic_run = (darwin_exotic_run.1, SystemExit 0) ∧
  ∃ fd a0 a,
    calls darwin_exotic_run.1 =
      [COpen "/dev/cu.usbserial" 131078 (inr fd); CGetattr fd (inr a0);
       CSetattr fd 0 a (inr tt); CClose fd (inr tt)] ∧
    stdout darwin_exotic_run.1 =
      ["Warning: Baudrate 460800 not available, using 115200";
       "[configure-serial] Configured /dev/cu.usbserial for raw binary mode";
       "[configure-serial] Baud rate: 115200";
       "[configure-serial] iflag=0, oflag=0, lflag=0 (all processing disabled)";
       "[configure-serial] VMIN=0, VTIME=0 (non-blocking)"] ∧
    stderr darwin_exotic_run.1 = [].
Proof.
  split; [vm_compute; reflexivity|].
  apply (success_transcript (OS0:=SimHost.sim_os darwin_termios)
           darwin_os darwin_termios "/dev/cu.usbserial" 460800 sim_darwin).
  vm_compute; reflexivity.
Defined.

Lemma reported_rate_witness :
  linux_raw_run = (linux_raw_run.1, linux_raw_run.2) ∧
  linux_raw_record ∈ applied (calls linux_raw_run.1) ∧
  effective_rate linux_termios 115200 ∈ [115200; 230400; 460800; 921600] ∧
  speed_attr linux_termios ("B" +:+ pretty (effective_rate linux_termios 115200)) =
    Some (ispeed linux_raw_record) ∧
  ospeed linux_raw_record = ispeed linux_raw_record ∧
  (linux_raw_run.2 = SystemExit 0 →
   "[configure-serial] Baud rate: " +:+ pretty (effective_rate linux_termios 115200)
     ∈ stdout linux_raw_run.1).
Proof.
  assert (linux_raw_run = (linux_raw_run.1, linux_raw_run.2)) as H1
    by (vm_compute; reflexivity).
  assert (linux_raw_record ∈ applied (calls linux_raw_run.1)) as H2
    by (vm_compute; apply list_elem_of_here).
  repeat (split; [assumption|]).
  exact (reported_rate_is_the_applied_rate (OS0:=SimHost.sim_os linux_termios)
           linux_os linux_termios "/dev/ttyS0" 115200 sim_linux _ _ _ H1 H2).
Defined.

Lemma missing_B115200_witness :
  speed_attr no_b115200_termios "B115200" = None ∧
  build_baudrates no_b115200_termios !! 230400 = Some 4099 ∧
  no_b115200_supported_run.2 = SystemExit 1 ∧
  applied (calls no_b115200_supported_run.1) = [] ∧
  (snapshots (calls no_b115200_supported_run.1) ≠ [] →
   stderr no_b115200_supported_run.1 =
     ["Error: module 'termios' has no attribute 'B115200'"]).
Proof.
  assert (speed_attr no_b115200_termios "B115200" = None) as Hb by reflexivity.
  split; [exact Hb|]. split; [vm_compute; reflexivity|].
  exact (missing_B115200_fails_every_request (OS0:=SimHost.sim_os no_b115200_termios)
           linux_os no_b115200_termios "/dev/ttyS0" 230400 sim_linux Hb).
Defined.

Lemma close_fault_witness :
  (steps_1_6 (OS0:=sim_os_close_fails linux_termios) linux_os linux_termios
     "/dev/ttyS0" 230400 (start sim_linux)).2 = Ret (3, 230400) ∧
  close_fails_run.2 = SystemExit 1 ∧
  stdout close_fails_run.1 =
    ["[configure-serial] Configured /dev/ttyS0 for raw binary mode";
     "[configure-serial] Baud rate: 230400";
     "[configure-serial] iflag=0, oflag=0, lflag=0 (all processing disabled)";
     "[configure-serial] VMIN=0, VTIME=0 (non-blocking)"] ∧
  stderr close_fails_run.1 = ["Error: [Errno 5] Input/output error"] ∧
  ∃ a, applied (calls close_fails_run.1) = [a].
Proof.
  split; [vm_compute; reflexivity|].
  destruct (close_fault_after_confirmation (OS0:=sim_os_close_fails linux_termios)
              linux_os linux_termios "/dev/ttyS0" 230400 sim_linux
              (steps_1_6 (OS0:=sim_os_close_fails linux_termios) linux_os linux_termios
                 "/dev/ttyS0" 230400 (start sim_linux)).1
              3 230400
              (world (steps_1_6 (OS0:=sim_os_close_fails linux_termios) linux_os
                        linux_termios "/dev/ttyS0" 230400 (start sim_linux)).1)
              (mk_exn OSError "[Errno 5] Input/output error"))
    as [Hrun [a Ha]].
  - vm_compute; reflexivity.
  - reflexivity.
  - change close_fails_run with
      (run (OS0:=sim_os_close_fails linux_termios) linux_os linux_termios
         "/dev/ttyS0" 230400 sim_linux).
    rewrite Hrun. repeat split; try (vm_compute; reflexivity).
    exists a. vm_compute. vm_compute in Ha. exact Ha.
Defined.

Lemma default_invocation_witness :
  (length ["configure-serial.py"] ≤ 1)%nat ∧
  default_main_run = (default_main_run.1, SystemExit 0) ∧
  stdout default_main_run.1 =
    [ "[configure-serial] Configured /dev/ttyS0 for raw binary mode";
      "[configure-serial] Baud rate: 115200";
      "[configure-serial] iflag=0, oflag=0, lflag=0 (all processing disabled)";
      "[configure-serial] VMIN=0, VTIME=0 (non-blocking)" ] ∧
  ∃ fd a0 a,
    calls default_main_run.1 =
      [COpen "/dev/ttyS0" 2306 (inr fd); CGetattr fd (inr a0);
       CSetattr fd 0 a (inr tt); CClose fd (inr tt)] ∧
    Some 4098 = Some (ispeed a) ∧ ospeed a = ispeed a.
Proof.
  assert (length ["configure-serial.py"] ≤ 1)%nat as H1 by (cbn; lia).
  assert (default_main_run = (default_main_run.1, SystemExit 0)) as H2
    by (vm_compute; reflexivity).
  split; [exact H1|]. split; [exact H2|].
  exact (default_invocation_transcript (OS0:=SimHost.sim_os linux_termios)
           linux_os linux_termios int_ascii ["configure-serial.py"] sim_linux _ H1 H2).
Defined.

Lemma success_releases_witness :
  linux_raw_run = (linux_raw_run.1, SystemExit 0) ∧
  unreleased (calls linux_raw_run.1) [] = [].
Proof.
  assert (linux_raw_run = (linux_raw_run.1, SystemExit 0)) as H1
    by (vm_compute; reflexivity).
  split; [exact H1|].
  exact (success_releases (OS0:=SimHost.sim_os linux_termios)
           linux_os linux_termios "/dev/ttyS0" 115200 sim_linux _ H1).
Defined.

Lemma fault_after_open_witness :
  SimHost.sim_open "/dev/null" 2306 sim_linux =
    ((SimHost.sim_open "/dev/null" 2306 sim_linux).1, inr 3) ∧
  (steps_1_6 (OS0:=SimHost.sim_os linux_termios) linux_os linux_termios
     "/dev/null" 115200 (start sim_linux)).2 =
    Raise (mk_exn TermiosError "(25, 'Inappropriate ioctl for device')") ∧
  ∃ pf, dev_null_run = (pf, SystemExit 1) ∧ unreleased (calls pf) [] = [3].
Proof.
  assert (SimHost.sim_open "/dev/null" 2306 sim_linux =
            ((SimHost.sim_open "/dev/null" 2306 sim_linux).1, inr 3)) as H1
    by (vm_compute; reflexivity).
  split; [exact H1|]. split; [vm_compute; reflexivity|].
  refine (fault_after_open_leaks (OS0:=SimHost.sim_os linux_termios)
            linux_os linux_termios "/dev/null" 115200 sim_linux
            (steps_1_6 (OS0:=SimHost.sim_os linux_termios) linux_os linux_termios
               "/dev/null" 115200 (start sim_linux)).1
            (mk_exn TermiosError "(25, 'Inappropriate ioctl for device')")
            3 _ H1 _).
  vm_compute; reflexivity.
Defined.
